(** * kubernetes-mcp-server: the OpenShift tool provider, its cluster queries,
      the tool visibility policy and the command-line bootstrap

    A shallow embedding of the Go sources

    - [pkg/kubernetes/openshift.go]   ([IsOpenShift], [ExecuteOcCommand]),
    - [pkg/openshift/updates]         ([GetClusterVersion], [GetAvailableUpdates],
                                       [GetCapabilities], [GetUpdateHistory]),
    - [pkg/mcp/openshift.go]          ([initOpenShift], [initOcCli] and the handlers),
    - [pkg/kubernetes-mcp-server/cmd] ([loadFlags], [Run]),

    followed by the properties of the specification that concern them.

    Conventions.  A Go function returning [(T, error)] is a pair
    [T * option error]; [None] is Go's [nil] error.  Calls that leave the
    process (cluster API, [oc] binary, server start-up, logging) are run in
    the monad [Eff Env Ev]: the environment [Env] answers the call and the
    call is recorded as an event of type [Ev], in program order. *)

From Stdlib Require Import ZArith.
From stdpp Require Import base option list strings gmap pretty.

Set Warnings "-register-all".
Open Scope string_scope.
Open Scope list_scope.

(** ** Go preliminaries *)

(** The line feed of Go's ["\n"]. *)
Definition LF : string := String (Ascii.ascii_of_nat 10) EmptyString.

(** The double quote of Go's escaped quote in a string literal. *)
Definition DQ : string := String (Ascii.ascii_of_nat 34) EmptyString.

(** [strings.Join]. *)
Fixpoint Join (elems : list string) (sep : string) : string :=
  match elems with
  | [] => ""
  | [s] => s
  | s :: rest => s +:+ sep +:+ Join rest sep
  end.

(** [slices.Contains] on a [[]string]. *)
Definition Contains (l : list string) (s : string) : bool :=
  existsb (String.eqb s) l.

(** Go's [error] values, as far as this program tells them apart:
    an opaque error with its text, the sentinel [context.Canceled], and an
    error built by [fmt.Errorf] with the verb [%w], which keeps the wrapped
    error in its chain. *)
Inductive error : Type :=
| errorString (msg : string)
| contextCanceled
| wrapError (msg : string) (inner : error).

(** The method [Error()]. *)
Definition Error (e : error) : string :=
  match e with
  | errorString msg => msg
  | contextCanceled => "context canceled"
  | wrapError msg _ => msg
  end.

(** [errors.Is(err, context.Canceled)]. *)
Fixpoint isCanceled (e : error) : bool :=
  match e with
  | errorString _ => false
  | contextCanceled => true
  | wrapError _ inner => isCanceled inner
  end.

(** [fmt.Errorf(prefix + "%v", err)]: the text only. *)
Definition Errorf_v (prefix : string) (err : error) : error :=
  errorString (prefix +:+ Error err).

(** [fmt.Errorf(prefix + "%w" + suffix, err)]: the text, and [err] wrapped. *)
Definition Errorf_w (prefix : string) (err : error) (suffix : string) : error :=
  wrapError (prefix +:+ Error err +:+ suffix) err.

(** [ptr.Deref(p, def)] and the test [p != nil && *p]. *)
Definition Deref {A} (p : option A) (def : A) : A := default def p.
Definition isTrue (p : option bool) : bool := Deref p false.

(** ** Effects: environment-answered calls with an event log *)

Record Eff (Env Ev A : Type) : Type := MkEff { run : Env -> A * list Ev }.
Arguments MkEff {Env Ev A} _.
Arguments run {Env Ev A} _ _.

Section EffOps.
Context {Env Ev : Type}.

Definition ret {A} (a : A) : Eff Env Ev A := MkEff (fun _ => (a, [])).

Definition bind {A B} (m : Eff Env Ev A) (k : A -> Eff Env Ev B) : Eff Env Ev B :=
  MkEff (fun env =>
    let (a, t1) := run m env in
    let (b, t2) := run (k a) env in
    (b, t1 ++ t2)).

(** One external call: log the event [ev], return what the environment answers. *)
Definition call {A} (ev : Ev) (answer : Env -> A) : Eff Env Ev A :=
  MkEff (fun env => (answer env, [ev])).

(** An external call without a result the program looks at. *)
Definition emit (ev : Ev) : Eff Env Ev unit := call ev (fun _ => tt).

Definition result {A} (m : Eff Env Ev A) (env : Env) : A := fst (run m env).
Definition events {A} (m : Eff Env Ev A) (env : Env) : list Ev := snd (run m env).
End EffOps.

(** Go's two-result idiom [v, ok := ...; if ok { ... }], chained. *)
Definition andThen {A B : Type} (m : option A) (k : A -> option B) : option B :=
  match m with
  | Some a => k a
  | None => None
  end.

Declare Scope eff_scope.
Delimit Scope eff_scope with eff.
Bind Scope eff_scope with Eff.
Declare Scope opt_scope.
Delimit Scope opt_scope with opt.

Notation "x <- m ; k" := (bind m (fun x => k))
  (at level 20, m at level 100, k at level 200, only parsing) : eff_scope.
Notation "' x <- m ; k" := (bind m (fun x => k))
  (at level 20, x pattern, m at level 100, k at level 200, only parsing) : eff_scope.
Notation "m ;; k" := (bind m (fun _ => k))
  (at level 100, k at level 200, only parsing, right associativity) : eff_scope.
Notation "x <- m ; k" := (andThen m (fun x => k))
  (at level 20, m at level 100, k at level 200, only parsing) : opt_scope.
Open Scope eff_scope.

(** ** Package [k8s.io/apimachinery]: the types the program passes around *)

Module schema.
Record GroupVersionResource : Type :=
  GVR { gvrGroup : string; gvrVersion : string; Resource : string }.
Record GroupVersionKind : Type :=
  GVK { Group : string; Version : string; Kind : string }.
End schema.

Module metav1.
(** [metav1.ListOptions], the two fields the program sets. *)
Record ListOptions : Type :=
  { Limit : Z; TimeoutSeconds : option Z }.
End metav1.

(** Decoded JSON as Go holds it in [interface{}]: [nil], [bool], a number,
    [string], [[]interface{}] and [map[string]interface{}]. *)
Inductive Value : Type :=
| VNil
| VBool (b : bool)
| VNumber (n : Z)
| VString (s : string)
| VSlice (l : list Value)
| VMap (m : gmap string Value).

(** [m[key]] on a [map[string]interface{}]: the nil interface when absent. *)
Definition index (m : gmap string Value) (key : string) : Value :=
  default VNil (m !! key).

(** The type assertions [v.(T)] in their two-result form; [None] is [ok = false]. *)
Definition assertMap (v : Value) : option (gmap string Value) :=
  match v with VMap m => Some m | _ => None end.
Definition assertSlice (v : Value) : option (list Value) :=
  match v with VSlice l => Some l | _ => None end.
Definition assertString (v : Value) : option string :=
  match v with VString s => Some s | _ => None end.
Definition assertBool (v : Value) : option bool :=
  match v with VBool b => Some b | _ => None end.

(** [unstructured.Unstructured]. *)
Record Unstructured : Type := { Object : gmap string Value }.

(** The request context: what the program reads from it are the caller's
    transport headers. *)
Definition Context : Type := gmap string string.
Definition Background : Context := ∅.

(** ** Package [pkg/kubernetes] *)

Module kubernetes.
Import schema metav1.

(** [*Kubernetes], the handle [Manager.Derived(ctx)] returns: the manager's
    connection with the headers of [ctx] layered on it. *)
Record Kubernetes : Type := { derivedFor : Context }.

(** Modelled from the spec: [Manager.Derived] (pkg/kubernetes, not under
    src/).  Section 4.3: a new access context per call that carries the
    call's headers to every outbound request. *)
Definition Derived (ctx : Context) : Kubernetes := {| derivedFor := ctx |}.

(** Calls that reach the cluster or the [oc] binary. *)
Inductive Request : Type :=
| DynamicList (ctx : Context) (gvr : GroupVersionResource) (opts : ListOptions)
| ResourcesGet (k : Kubernetes) (ctx : Context) (gvk : GroupVersionKind)
    (namespace name : string)
| OcCombinedOutput (ctx : Context) (args : list string).

(** What is on the other side.  [dynamicList] is
    [dynamicClient.Resource(gvr).List(ctx, opts)], [resourcesGet] is
    [k.ResourcesGet(ctx, gvk, namespace, name)] and [ocCombinedOutput] is
    [exec.CommandContext(ctx, "oc", args...).CombinedOutput()]. *)
Record Cluster : Type := {
  dynamicList : Context -> GroupVersionResource -> ListOptions ->
                list Unstructured * option error;
  resourcesGet : Kubernetes -> Context -> GroupVersionKind -> string -> string ->
                 Unstructured + error;
  ocCombinedOutput : Context -> list string -> string * option error;
}.

Definition K : Type -> Type := Eff Cluster Request.

(** [k.ResourcesGet(ctx, gvk, namespace, name)]. *)
Definition ResourcesGet_ (k : Kubernetes) (ctx : Context) (gvk : GroupVersionKind)
    (namespace name : string) : K (Unstructured + error) :=
  call (ResourcesGet k ctx gvk namespace name)
       (fun c => resourcesGet c k ctx gvk namespace name).

Definition projects : GroupVersionResource :=
  {| gvrGroup := "project.openshift.io"; gvrVersion := "v1"; Resource := "projects" |}.

(** [func (m *Manager) IsOpenShift(ctx context.Context) bool] *)
Definition IsOpenShift (ctx : Context) : K bool :=
  let timeoutSeconds : Z := 5%Z in
  let opts := {| Limit := 1%Z; TimeoutSeconds := Some timeoutSeconds |} in
  r <- call (DynamicList ctx projects opts)
            (fun c => dynamicList c ctx projects opts) ;
  match snd r with
  | None => ret true
  | Some _ => ret false
  end.

Section Strings.
(** [strings.TrimSpace] of the Go standard library. *)
Variable TrimSpace : string -> string.

(** [func (m *Manager) ExecuteOcCommand(ctx, args ...string) (string, error)] *)
Definition ExecuteOcCommand (ctx : Context) (args : list string)
    : K (string * option error) :=
  r <- call (OcCombinedOutput ctx args) (fun c => ocCombinedOutput c ctx args) ;
  let (output, err) := r : string * option error in
  match err with
  | Some e => ret (TrimSpace output, Some e)
  | None => ret (TrimSpace output, None)
  end.
End Strings.
End kubernetes.

(** ** Package [pkg/openshift/updates] *)

Module updates.
Import kubernetes.

(** [type Update struct] *)
Record Update : Type := { Version : string; Image : string }.

(** [type Capabilities struct] *)
Record Capabilities : Type := { Enabled : list string; Known : list string }.

(** [type UpdateHistory struct], with the embedded [Update]. *)
Record UpdateHistory : Type := {
  Update_ : Update;
  CompletionTime : string;
  StartedTime : string;
  State : string;
  Verified : bool;
}.

(** The [gvk] every function of the package builds. *)
Definition ClusterVersion : schema.GroupVersionKind :=
  {| schema.Group := "config.openshift.io"; schema.Version := "v1";
     schema.Kind := "ClusterVersion" |}.

(** [v, ok := x.(string); ok && v != ""] *)
Definition nonEmpty (v : string) : option string :=
  if String.eqb v "" then None else Some v.

(** [func GetClusterVersion(ctx, k) (string, error)] *)
Definition GetClusterVersion (ctx : Context) (k : Kubernetes) : K (string * option error) :=
  r <- ResourcesGet_ k ctx ClusterVersion "" "version" ;
  match r with
  | inr err =>
      ret ("", Some (Errorf_w "cannot retrieve OpenShift ClusterVersion resource: " err ""))
  | inl obj =>
      match assertMap (index (Object obj) "status") with
      | None => ret ("", Some (errorString "unexpected ClusterVersion payload: missing status"))
      | Some status =>
          (* First, try the canonical field. *)
          let canonical : option string :=
            (desired <- assertMap (index status "desired") ;
             v <- assertString (index desired "version") ;
             nonEmpty v)%opt in
          match canonical with
          | Some v => ret (v, None)
          | None =>
              (* Fallback to history[0].version *)
              let fallback : option string :=
                (history <- assertSlice (index status "history") ;
                 if Nat.ltb 0 (length history) then
                   entry <- assertMap (default VNil (history !! 0%nat)) ;
                   v <- assertString (index entry "version") ;
                   nonEmpty v
                 else None)%opt in
              match fallback with
              | Some v => ret (v, None)
              | None =>
                  ret ("", Some (errorString "version field not found in ClusterVersion status"))
              end
          end
      end
  end.

(** One turn of the loop of [GetAvailableUpdates]: [updates] after [entry]. *)
Definition appendUpdate (updates : list Update) (entry : Value) : list Update :=
  match assertMap entry with
  | None => updates (* skip malformed entries *)
  | Some updMap =>
      let upd := {| Version := ""; Image := "" |} in
      let upd := match assertString (index updMap "version") with
                 | Some v => {| Version := v; Image := Image upd |}
                 | None => upd
                 end in
      let upd := match assertString (index updMap "image") with
                 | Some img => {| Version := Version upd; Image := img |}
                 | None => upd
                 end in
      if negb (String.eqb (Version upd) "") then updates ++ [upd] else updates
  end.

(** [func GetAvailableUpdates(ctx, k) ([]Update, error)] *)
Definition GetAvailableUpdates (ctx : Context) (k : Kubernetes) : K (list Update * option error) :=
  r <- ResourcesGet_ k ctx ClusterVersion "" "version" ;
  match r with
  | inr err =>
      ret ([], Some (Errorf_w "cannot retrieve OpenShift ClusterVersion resource: " err ""))
  | inl obj =>
      match assertMap (index (Object obj) "status") with
      | None => ret ([], Some (errorString "unexpected ClusterVersion payload: missing status"))
      | Some status =>
          match assertSlice (index status "availableUpdates") with
          | None => ret ([], None)
          | Some availableUpdatesIface =>
              let updates := fold_left appendUpdate availableUpdatesIface [] in
              ret (updates, None)
          end
      end
  end.

(** [func convertInterfaceSliceToStringSlice(input []interface{}) []string] *)
Definition convertInterfaceSliceToStringSlice (input : list Value) : list string :=
  fold_left (fun ret item =>
               match assertString item with
               | Some s => ret ++ [s]
               | None => ret
               end) input [].

(** [func GetCapabilities(ctx, k) (Capabilities, error)] *)
Definition GetCapabilities (ctx : Context) (k : Kubernetes) : K (Capabilities * option error) :=
  let zero := {| Enabled := []; Known := [] |} in
  r <- ResourcesGet_ k ctx ClusterVersion "" "version" ;
  match r with
  | inr err =>
      ret (zero, Some (Errorf_w "cannot retrieve OpenShift ClusterVersion resource: " err ""))
  | inl obj =>
      match assertMap (index (Object obj) "status") with
      | None => ret (zero, Some (errorString "unexpected ClusterVersion payload: missing status"))
      | Some status =>
          match assertMap (index status "capabilities") with
          | None => ret (zero, Some (errorString "capabilities not found in ClusterVersion status"))
          | Some capsStatus =>
              let caps := zero in
              let caps := match assertSlice (index capsStatus "enabledCapabilities") with
                          | Some enabled =>
                              {| Enabled := convertInterfaceSliceToStringSlice enabled;
                                 Known := Known caps |}
                          | None => caps
                          end in
              let caps := match assertSlice (index capsStatus "knownCapabilities") with
                          | Some known =>
                              {| Enabled := Enabled caps;
                                 Known := convertInterfaceSliceToStringSlice known |}
                          | None => caps
                          end in
              ret (caps, None)
          end
      end
  end.

(** [hMap[key].(string)] assigned over the zero value. *)
Definition stringField (hMap : gmap string Value) (key : string) : string :=
  default "" (assertString (index hMap key)).

(** One turn of the loop of [GetUpdateHistory]. *)
Definition appendHistory (history : list UpdateHistory) (entry : Value)
    : list UpdateHistory :=
  match assertMap entry with
  | None => history
  | Some hMap =>
      let uh := {| Update_ := {| Version := stringField hMap "version";
                                 Image := stringField hMap "image" |};
                   CompletionTime := stringField hMap "completionTime";
                   StartedTime := stringField hMap "startedTime";
                   State := stringField hMap "state";
                   Verified := default false (assertBool (index hMap "verified")) |} in
      if negb (String.eqb (Version (Update_ uh)) "") then history ++ [uh] else history
  end.

(** [func GetUpdateHistory(ctx, k) ([]UpdateHistory, error)] *)
Definition GetUpdateHistory (ctx : Context) (k : Kubernetes) : K (list UpdateHistory * option error) :=
  r <- ResourcesGet_ k ctx ClusterVersion "" "version" ;
  match r with
  | inr err =>
      ret ([], Some (Errorf_w "cannot retrieve OpenShift ClusterVersion resource: " err ""))
  | inl obj =>
      match assertMap (index (Object obj) "status") with
      | None => ret ([], Some (errorString "unexpected ClusterVersion payload: missing status"))
      | Some status =>
          match assertSlice (index status "history") with
          | None => ret ([], None)
          | Some historyIface => ret (fold_left appendHistory historyIface [], None)
          end
      end
  end.
End updates.

(** ** Package [pkg/config] *)

Module config.
(** Modelled from the spec: the declaration of [StaticConfig] (pkg/config,
    not under src/).  Section 3, Configuration: output-format name,
    read-only flag, disable-destructive flag, enabled-tool and disabled-tool
    name sets, credentials-file path, per-transport port and base-URL
    settings; the field names are those the sources under src/ use. *)
Record StaticConfig : Type := {
  LogLevel : Z;
  SSEPort : Z;
  HTTPPort : Z;
  SSEBaseURL : string;
  KubeConfig : string;
  ListOutput : string;
  ReadOnly : bool;
  DisableDestructive : bool;
  EnabledTools : list string;
  DisabledTools : list string;
}.

(** [&config.StaticConfig{}] *)
Definition zero : StaticConfig :=
  {| LogLevel := 0; SSEPort := 0; HTTPPort := 0; SSEBaseURL := ""; KubeConfig := "";
     ListOutput := ""; ReadOnly := false; DisableDestructive := false;
     EnabledTools := []; DisabledTools := [] |}.
End config.

(** ** Package [pkg/output] *)

Module output.
(** The interface [output.Output], of which the program calls [GetName]. *)
Record Output : Type := { GetName : string }.
End output.

(** ** Package [pkg/mcp] *)

Module mcp.
Import kubernetes.

(** *** The tool descriptors of the library [mcp-go] *)

Record ToolAnnotation : Type := {
  Title : string;
  ReadOnlyHint : option bool;
  DestructiveHint : option bool;
  OpenWorldHint : option bool;
}.

Record Property : Type := {
  propertyName : string;
  propertyType : string;
  propertyDescription : string;
}.

Record Tool : Type := {
  Name : string;
  Description : string;
  InputSchema : list Property;
  Annotations : ToolAnnotation;
}.

Record CallToolRequest : Type := { GetArguments : gmap string Value }.

(** [mcp.CallToolResult] with its text contents. *)
Record CallToolResult : Type := { Content : list string; IsError : bool }.

Definition ToolHandlerFunc : Type :=
  Context -> CallToolRequest -> K (CallToolResult * option error).

(** [server.ServerTool]; a Go func value may be [nil]. *)
Record ServerTool : Type := { Tool_ : Tool; Handler : option ToolHandlerFunc }.

Definition withAnnotations (f : ToolAnnotation -> ToolAnnotation) (t : Tool) : Tool :=
  {| Name := Name t; Description := Description t; InputSchema := InputSchema t;
     Annotations := f (Annotations t) |}.

Definition WithDescription (description : string) (t : Tool) : Tool :=
  {| Name := Name t; Description := description; InputSchema := InputSchema t;
     Annotations := Annotations t |}.

Definition WithTitleAnnotation (title : string) : Tool -> Tool :=
  withAnnotations (fun a =>
    {| Title := title; ReadOnlyHint := ReadOnlyHint a;
       DestructiveHint := DestructiveHint a; OpenWorldHint := OpenWorldHint a |}).

Definition WithReadOnlyHintAnnotation (value : bool) : Tool -> Tool :=
  withAnnotations (fun a =>
    {| Title := Title a; ReadOnlyHint := Some value;
       DestructiveHint := DestructiveHint a; OpenWorldHint := OpenWorldHint a |}).

Definition WithDestructiveHintAnnotation (value : bool) : Tool -> Tool :=
  withAnnotations (fun a =>
    {| Title := Title a; ReadOnlyHint := ReadOnlyHint a;
       DestructiveHint := Some value; OpenWorldHint := OpenWorldHint a |}).

Definition WithOpenWorldHintAnnotation (value : bool) : Tool -> Tool :=
  withAnnotations (fun a =>
    {| Title := Title a; ReadOnlyHint := ReadOnlyHint a;
       DestructiveHint := DestructiveHint a; OpenWorldHint := Some value |}).

Definition withProperty (p : Property) (t : Tool) : Tool :=
  {| Name := Name t; Description := Description t; InputSchema := InputSchema t ++ [p];
     Annotations := Annotations t |}.

(** [mcp.WithString(name, mcp.Description(description))] *)
Definition WithString (name description : string) : Tool -> Tool :=
  withProperty {| propertyName := name; propertyType := "string";
                  propertyDescription := description |}.

(** [WithParameter(mcp.NewParameter(name, description).WithType(mcp.ParameterTypeArray))] *)
Definition WithArrayParameter (name description : string) : Tool -> Tool :=
  withProperty {| propertyName := name; propertyType := "array";
                  propertyDescription := description |}.

(** *** The profile and the configuration of a server *)

(** The interface [mcp.Profile], of which the sources under src/ call [GetName]. *)
Record Profile : Type := { GetName : string }.

(** [type Configuration struct] *)
Record Configuration : Type := {
  Profile_ : Profile;
  ListOutput : output.Output;
  StaticConfig : config.StaticConfig;
}.

(** Modelled from the spec: [Configuration.isToolApplicable] (pkg/mcp/mcp.go,
    not under src/).  Section 4.2, rules 1 to 5 in their order; rule 4 with
    the edge case the section spells out, that it only triggers when the
    destructive annotation is true and the read-only annotation is not.  An
    annotation "is true" when it is set and true. *)
Definition isToolApplicable (c : Configuration) (tool : ServerTool) : bool :=
  let sc := StaticConfig c in
  let name := Name (Tool_ tool) in
  let annotations := Annotations (Tool_ tool) in
  match config.EnabledTools sc with
  | _ :: _ => Contains (config.EnabledTools sc) name
  | [] =>
      if Contains (config.DisabledTools sc) name then false
      else if config.ReadOnly sc && negb (isTrue (ReadOnlyHint annotations)) then false
      else if config.DisableDestructive sc && isTrue (DestructiveHint annotations)
              && negb (isTrue (ReadOnlyHint annotations)) then false
      else true
  end.

(** Modelled from the spec: the Catalog Builder (pkg/mcp/mcp.go, not under
    src/).  Section 4.1, steps 2 and 3: concatenate all provider tool lists,
    apply the visibility filter to each descriptor. *)
Definition buildCatalog (c : Configuration) (providers : list (list ServerTool))
    : list ServerTool :=
  List.filter (isToolApplicable c) (concat providers).

(** Modelled from the spec: [NewTextResult] (pkg/mcp/mcp.go, not under
    src/).  Section 7 (4): an error is returned to the caller as a
    failed-call result, which carries the error's text; without an error
    the result carries the content. *)
Definition NewTextResult (content : string) (err : option error) : CallToolResult :=
  match err with
  | Some e => {| Content := [Error e]; IsError := true |}
  | None => {| Content := [content]; IsError := false |}
  end.

(** Modelled from the spec: [modelcontext.ErrorToolResult] and
    [modelcontext.TextToolResult] (not under src/): the failed-call result
    with a text, and the result of a call that succeeded. *)
Definition ErrorToolResult (text : string) : CallToolResult :=
  {| Content := [text]; IsError := true |}.
Definition TextToolResult (text : string) : CallToolResult :=
  {| Content := [text]; IsError := false |}.

(** *** [openshift.go]: the OpenShift providers and their handlers *)

Section Providers.
(** The annotations [mcp.NewTool] of the library starts from. *)
Variable defaultAnnotations : ToolAnnotation.
(** [output.MarshalYaml] (pkg/output, not under src/). *)
Variable MarshalYaml : forall A : Type, A -> string * option error.
(** [strings.TrimSpace]. *)
Variable TrimSpace : string -> string.
(** [ctr.Parameters.Bind(name, &args)] for [args []string]. *)
Variable Bind : CallToolRequest -> string -> list string * option error.

(** [mcp.NewTool(name, opts...)] *)
Definition NewTool (name : string) (opts : list (Tool -> Tool)) : Tool :=
  fold_left (fun t opt => opt t) opts
    {| Name := name; Description := ""; InputSchema := [];
       Annotations := defaultAnnotations |}.

Definition openShiftClusterVersion (ctx : Context) (_ : CallToolRequest)
    : K (CallToolResult * option error) :=
  '(version, err) <- updates.GetClusterVersion ctx (Derived ctx) ;
  match err with
  | Some err =>
      ret (NewTextResult ""
              (Some (Errorf_v "failed to get OpenShift cluster version: " err)), None)
  | None => ret (NewTextResult version None, None)
  end.

Definition openShiftAvailableUpdates (ctx : Context) (_ : CallToolRequest)
    : K (CallToolResult * option error) :=
  '(updates, err) <- updates.GetAvailableUpdates ctx (Derived ctx) ;
  match err with
  | Some err =>
      ret (NewTextResult ""
              (Some (Errorf_v "failed to get OpenShift available updates: " err)), None)
  | None =>
      let '(yamlOut, err) := MarshalYaml _ updates in
      match err with
      | Some err =>
          ret (NewTextResult ""
                  (Some (Errorf_v "failed to marshal available updates: " err)), None)
      | None =>
          ret (NewTextResult ("Available updates (YAML format):" +:+ LF +:+ yamlOut) None,
                None)
      end
  end.

Definition openShiftCapabilities (ctx : Context) (ctr : CallToolRequest)
    : K (CallToolResult * option error) :=
  '(caps, err) <- updates.GetCapabilities ctx (Derived ctx) ;
  match err with
  | Some err =>
      ret (NewTextResult ""
              (Some (Errorf_v "failed to get OpenShift capabilities: " err)), None)
  | None =>
      let capTypeArg : string :=
        match index (GetArguments ctr) "type" with
        | VNil => ""
        | v => default "" (assertString v)
        end in
      let '(yamlOut, err) :=
        if String.eqb capTypeArg "enabled" then MarshalYaml _ (updates.Enabled caps)
        else if String.eqb capTypeArg "known" then MarshalYaml _ (updates.Known caps)
        else MarshalYaml _ caps in
      match err with
      | Some err =>
          ret (NewTextResult ""
                  (Some (Errorf_v "failed to marshal capabilities: " err)), None)
      | None =>
          ret (NewTextResult ("Cluster capabilities (YAML format):" +:+ LF +:+ yamlOut) None,
                None)
      end
  end.

Definition openShiftUpdateHistory (ctx : Context) (_ : CallToolRequest)
    : K (CallToolResult * option error) :=
  '(history, err) <- updates.GetUpdateHistory ctx (Derived ctx) ;
  match err with
  | Some err =>
      ret (NewTextResult ""
              (Some (Errorf_v "failed to get OpenShift update history: " err)), None)
  | None =>
      let '(yamlOut, err) := MarshalYaml _ history in
      match err with
      | Some err =>
          ret (NewTextResult ""
                  (Some (Errorf_v "failed to marshal update history: " err)), None)
      | None =>
          ret (NewTextResult
                  ("Cluster update history (YAML format):" +:+ LF +:+ yamlOut) None,
                None)
      end
  end.

Definition ocCliExec (ctx : Context) (ctr : CallToolRequest)
    : K (CallToolResult * option error) :=
  let '(args, err) := Bind ctr "command" in
  match err with
  | Some err => ret (ErrorToolResult (Error err), None)
  | None =>
      '(output, err) <- ExecuteOcCommand TrimSpace ctx args ;
      match err with
      | Some err => ret (ErrorToolResult (output +:+ LF +:+ Error err), None)
      | None => ret (TextToolResult output, None)
      end
  end.

(** [func (s *Server) initOpenShift() []server.ServerTool] *)
Definition initOpenShift : K (list ServerTool) :=
  isOpenShift <- IsOpenShift Background ;
  if negb isOpenShift then ret []
  else ret [
    {| Tool_ := NewTool "cluster_version_get" [
         WithDescription "Get the OpenShift cluster version (for example '4.15.9')";
         WithTitleAnnotation "OpenShift: Cluster Version";
         WithReadOnlyHintAnnotation true;
         WithDestructiveHintAnnotation false;
         WithOpenWorldHintAnnotation true ];
       Handler := Some openShiftClusterVersion |};
    {| Tool_ := NewTool "cluster_available_updates_list" [
         WithDescription "List the OpenShift cluster available updates (version and image)";
         WithTitleAnnotation "OpenShift: Available Updates";
         WithReadOnlyHintAnnotation true;
         WithDestructiveHintAnnotation false;
         WithOpenWorldHintAnnotation true ];
       Handler := Some openShiftAvailableUpdates |};
    {| Tool_ := NewTool "cluster_capabilities_get" [
         WithDescription "Get the OpenShift cluster capabilities (enabled or known)";
         WithString "type" "Type of capabilities to retrieve ('enabled' or 'known'). If not provided, both are returned";
         WithTitleAnnotation "OpenShift: Capabilities";
         WithReadOnlyHintAnnotation true;
         WithDestructiveHintAnnotation false;
         WithOpenWorldHintAnnotation true ];
       Handler := Some openShiftCapabilities |};
    {| Tool_ := NewTool "cluster_update_history_list" [
         WithDescription "List the OpenShift cluster update history";
         WithTitleAnnotation "OpenShift: Update History";
         WithReadOnlyHintAnnotation true;
         WithDestructiveHintAnnotation false;
         WithOpenWorldHintAnnotation true ];
       Handler := Some openShiftUpdateHistory |} ].

(** [func (s *Server) initOcCli() []server.ServerTool] *)
Definition initOcCli : list ServerTool :=
  [ {| Tool_ := NewTool "oc_cli_exec" [
         WithDescription "Execute an oc command";
         WithArrayParameter "command"
           ("Command and its arguments as a list of strings, e.g., [" +:+ DQ +:+ "get"
              +:+ DQ +:+ ", " +:+ DQ +:+ "pods" +:+ DQ +:+ "]");
         WithTitleAnnotation "OpenShift: Execute OC Command";
         WithReadOnlyHintAnnotation false;
         WithDestructiveHintAnnotation true;
         WithOpenWorldHintAnnotation true ];
       Handler := Some ocCliExec |} ].
End Providers.
End mcp.

(** ** Package [cmd]: options, flags and start-up *)

Module cmd.
(** [type MCPServerOptions struct]; [StaticConfig] is the value the pointer
    field refers to, [IOStreams] is the [Fprintf] event below. *)
Record MCPServerOptions : Type := {
  Version : bool;
  LogLevel : Z;
  SSEPort : Z;
  HttpPort : Z;
  SSEBaseUrl : string;
  Kubeconfig : string;
  Profile : string;
  ListOutput : string;
  ReadOnly : bool;
  DisableDestructive : bool;
  ConfigPath : string;
  StaticConfig : config.StaticConfig;
}.

(** [func NewMCPServerOptions(streams) *MCPServerOptions] *)
Definition NewMCPServerOptions : MCPServerOptions :=
  {| Version := false; LogLevel := 0; SSEPort := 0; HttpPort := 0; SSEBaseUrl := "";
     Kubeconfig := ""; Profile := "full"; ListOutput := "table"; ReadOnly := false;
     DisableDestructive := false; ConfigPath := ""; StaticConfig := config.zero |}.

(** A [pflag.Flag], of which [loadFlags] reads [Changed], and a
    [cobra.Command] with the flags registered on it. *)
Record Flag : Type := { Changed : bool }.
Record Command : Type := { Flags : gmap string Flag }.

(** The flags [NewMCPServer] registers. *)
Definition flagNames : list string :=
  [ "version"; "log-level"; "config"; "sse-port"; "http-port"; "sse-base-url";
    "kubeconfig"; "profile"; "list-output"; "read-only"; "disable-destructive" ].

Definition registered (c : Command) : bool :=
  forallb (fun name => bool_decide (is_Some (Flags c !! name))) flagNames.

(** [cmd.Flag(name).Changed]; [cmd.Flag] is [nil] for a name that is not
    registered, and [None] is the panic of dereferencing it. *)
Definition changed (c : Command) (name : string) : option bool :=
  Changed <$> (Flags c !! name).

Definition withStaticConfig (m : MCPServerOptions) (sc : config.StaticConfig)
    : MCPServerOptions :=
  {| Version := Version m; LogLevel := LogLevel m; SSEPort := SSEPort m;
     HttpPort := HttpPort m; SSEBaseUrl := SSEBaseUrl m; Kubeconfig := Kubeconfig m;
     Profile := Profile m; ListOutput := ListOutput m; ReadOnly := ReadOnly m;
     DisableDestructive := DisableDestructive m; ConfigPath := ConfigPath m;
     StaticConfig := sc |}.

(** The assignments [m.StaticConfig.F = v]. *)
Section Assign.
Import config.
Definition setLogLevel (v : Z) (sc : StaticConfig) : StaticConfig :=
  {| LogLevel := v; SSEPort := SSEPort sc; HTTPPort := HTTPPort sc;
     SSEBaseURL := SSEBaseURL sc; KubeConfig := KubeConfig sc;
     ListOutput := ListOutput sc; ReadOnly := ReadOnly sc;
     DisableDestructive := DisableDestructive sc;
     EnabledTools := EnabledTools sc; DisabledTools := DisabledTools sc |}.
Definition setSSEPort (v : Z) (sc : StaticConfig) : StaticConfig :=
  {| LogLevel := LogLevel sc; SSEPort := v; HTTPPort := HTTPPort sc;
     SSEBaseURL := SSEBaseURL sc; KubeConfig := KubeConfig sc;
     ListOutput := ListOutput sc; ReadOnly := ReadOnly sc;
     DisableDestructive := DisableDestructive sc;
     EnabledTools := EnabledTools sc; DisabledTools := DisabledTools sc |}.
Definition setHTTPPort (v : Z) (sc : StaticConfig) : StaticConfig :=
  {| LogLevel := LogLevel sc; SSEPort := SSEPort sc; HTTPPort := v;
     SSEBaseURL := SSEBaseURL sc; KubeConfig := KubeConfig sc;
     ListOutput := ListOutput sc; ReadOnly := ReadOnly sc;
     DisableDestructive := DisableDestructive sc;
     EnabledTools := EnabledTools sc; DisabledTools := DisabledTools sc |}.
Definition setSSEBaseURL (v : string) (sc : StaticConfig) : StaticConfig :=
  {| LogLevel := LogLevel sc; SSEPort := SSEPort sc; HTTPPort := HTTPPort sc;
     SSEBaseURL := v; KubeConfig := KubeConfig sc;
     ListOutput := ListOutput sc; ReadOnly := ReadOnly sc;
     DisableDestructive := DisableDestructive sc;
     EnabledTools := EnabledTools sc; DisabledTools := DisabledTools sc |}.
Definition setKubeConfig (v : string) (sc : StaticConfig) : StaticConfig :=
  {| LogLevel := LogLevel sc; SSEPort := SSEPort sc; HTTPPort := HTTPPort sc;
     SSEBaseURL := SSEBaseURL sc; KubeConfig := v;
     ListOutput := ListOutput sc; ReadOnly := ReadOnly sc;
     DisableDestructive := DisableDestructive sc;
     EnabledTools := EnabledTools sc; DisabledTools := DisabledTools sc |}.
Definition setListOutput (v : string) (sc : StaticConfig) : StaticConfig :=
  {| LogLevel := LogLevel sc; SSEPort := SSEPort sc; HTTPPort := HTTPPort sc;
     SSEBaseURL := SSEBaseURL sc; KubeConfig := KubeConfig sc;
     ListOutput := v; ReadOnly := ReadOnly sc;
     DisableDestructive := DisableDestructive sc;
     EnabledTools := EnabledTools sc; DisabledTools := DisabledTools sc |}.
Definition setReadOnly (v : bool) (sc : StaticConfig) : StaticConfig :=
  {| LogLevel := LogLevel sc; SSEPort := SSEPort sc; HTTPPort := HTTPPort sc;
     SSEBaseURL := SSEBaseURL sc; KubeConfig := KubeConfig sc;
     ListOutput := ListOutput sc; ReadOnly := v;
     DisableDestructive := DisableDestructive sc;
     EnabledTools := EnabledTools sc; DisabledTools := DisabledTools sc |}.
Definition setDisableDestructive (v : bool) (sc : StaticConfig) : StaticConfig :=
  {| LogLevel := LogLevel sc; SSEPort := SSEPort sc; HTTPPort := HTTPPort sc;
     SSEBaseURL := SSEBaseURL sc; KubeConfig := KubeConfig sc;
     ListOutput := ListOutput sc; ReadOnly := ReadOnly sc;
     DisableDestructive := v;
     EnabledTools := EnabledTools sc; DisabledTools := DisabledTools sc |}.
End Assign.

(** [func (m *MCPServerOptions) loadFlags(cmd *cobra.Command)]: the options
    after the call, [None] when it panics. *)
Definition loadFlags (m : MCPServerOptions) (c : Command) : option MCPServerOptions :=
 (let sc := StaticConfig m in
  logLevel <- changed c "log-level" ;
  let sc := if logLevel then setLogLevel (LogLevel m) sc else sc in
  ssePort <- changed c "sse-port" ;
  let sc := if ssePort then setSSEPort (SSEPort m) sc else sc in
  httpPort <- changed c "http-port" ;
  let sc := if httpPort then setHTTPPort (HttpPort m) sc else sc in
  sseBaseUrl <- changed c "sse-base-url" ;
  let sc := if sseBaseUrl then setSSEBaseURL (SSEBaseUrl m) sc else sc in
  kubeconfig <- changed c "kubeconfig" ;
  let sc := if kubeconfig then setKubeConfig (Kubeconfig m) sc else sc in
  listOutput <- changed c "list-output" ;
  let sc := if listOutput || String.eqb (config.ListOutput sc) ""
            then setListOutput (ListOutput m) sc else sc in
  readOnly <- changed c "read-only" ;
  let sc := if readOnly then setReadOnly (ReadOnly m) sc else sc in
  disableDestructive <- changed c "disable-destructive" ;
  let sc := if disableDestructive
            then setDisableDestructive (DisableDestructive m) sc else sc in
  Some (withStaticConfig m sc))%opt.

(** What [Run] does to the outside, in program order. *)
Inductive Event : Type :=
| Klog (verbosity : Z) (msg : string)
| Fprintf (text : string)
| NewServer (configuration : mcp.Configuration)
| Close
| ServeSse (baseUrl : string)
| SseStart (addr : string)
| SseShutdown
| ServeHTTP
| HttpStart (addr : string)
| ServeStdio.

(** What the calls of [Run] that can fail return. *)
Record World : Type := {
  newServer : mcp.Configuration -> option error;
  sseStart : string -> option error;
  httpStart : string -> option error;
  serveStdio : option error;
}.

Definition formatBool (b : bool) : string := if b then "true" else "false".

Section Run.
(** [mcp.ProfileFromString], [mcp.ProfileNames], [output.FromString],
    [output.Names] and [version.Version], none of them under src/. *)
Variable ProfileFromString : string -> option mcp.Profile.
Variable ProfileNames : list string.
Variable FromString : string -> option output.Output.
Variable Names : list string.
Variable version_Version : string.

(** The end of [Run]: [mcpServer.ServeStdio()]. *)
Definition runStdio : Eff World Event (option error) :=
  err <- call ServeStdio serveStdio ;
  match err with
  | Some err => if negb (isCanceled err) then ret (Some err) else ret None
  | None => ret None
  end.

(** [Run] from [if m.StaticConfig.HTTPPort > 0] on. *)
Definition runHTTP (m : MCPServerOptions) : Eff World Event (option error) :=
  let port := config.HTTPPort (StaticConfig m) in
  if (0 <? port)%Z then
    emit ServeHTTP ;;
    emit (Klog 0 ("Streaming HTTP server starting on port " +:+ pretty port
                  +:+ " and path /mcp")) ;;
    err <- call (HttpStart (":" +:+ pretty port))
                (fun w => httpStart w (":" +:+ pretty port)) ;
    match err with
    | Some err => ret (Some (Errorf_w "failed to start streaming HTTP server: " err LF))
    | None => runStdio
    end
  else runStdio.

(** [Run] from [if m.StaticConfig.SSEPort > 0] on, with the deferred
    [sseServer.Shutdown(ctx)] at its end. *)
Definition runSSE (m : MCPServerOptions) : Eff World Event (option error) :=
  let port := config.SSEPort (StaticConfig m) in
  if (0 <? port)%Z then
    emit (ServeSse (config.SSEBaseURL (StaticConfig m))) ;;
    emit (Klog 0 ("SSE server starting on port " +:+ pretty port +:+ " and path /sse")) ;;
    err <- call (SseStart (":" +:+ pretty port))
                (fun w => sseStart w (":" +:+ pretty port)) ;
    res <- match err with
           | Some err => ret (Some (Errorf_w "failed to start SSE server: " err LF))
           | None => runHTTP m
           end ;
    emit SseShutdown ;;
    ret res
  else runHTTP m.

(** [func (m *MCPServerOptions) Run() error] *)
Definition Run (m : MCPServerOptions) : Eff World Event (option error) :=
  match ProfileFromString (Profile m) with
  | None =>
      ret (Some (errorString ("Invalid profile name: " +:+ Profile m
                    +:+ ", valid names are: " +:+ Join ProfileNames ", " +:+ LF)))
  | Some profile =>
      match FromString (config.ListOutput (StaticConfig m)) with
      | None =>
          ret (Some (errorString ("Invalid output name: "
                        +:+ config.ListOutput (StaticConfig m)
                        +:+ ", valid names are: " +:+ Join Names ", " +:+ LF)))
      | Some listOutput =>
          emit (Klog 1 "Starting kubernetes-mcp-server") ;;
          emit (Klog 1 (" - Config: " +:+ ConfigPath m)) ;;
          emit (Klog 1 (" - Profile: " +:+ mcp.GetName profile)) ;;
          emit (Klog 1 (" - ListOutput: " +:+ output.GetName listOutput)) ;;
          emit (Klog 1 (" - Read-only mode: "
                        +:+ formatBool (config.ReadOnly (StaticConfig m)))) ;;
          emit (Klog 1 (" - Disable destructive tools: "
                        +:+ formatBool (config.DisableDestructive (StaticConfig m)))) ;;
          if Version m then
            emit (Fprintf (version_Version +:+ LF)) ;;
            ret None
          else
            let configuration :=
              {| mcp.Profile_ := profile; mcp.ListOutput := listOutput;
                 mcp.StaticConfig := StaticConfig m |} in
            err <- call (NewServer configuration) (fun w => newServer w configuration) ;
            match err with
            | Some err => ret (Some (Errorf_w "Failed to initialize MCP server: " err LF))
            | None =>
                (* defer mcpServer.Close() *)
                res <- runSSE m ;
                emit Close ;;
                ret res
            end
      end
  end.
End Run.

(** The options of the text logger that [initializeLogging] installs, and
    the arguments it parses into the flag set of klog. *)
Inductive ConfigOption : Type :=
| Output
| Verbosity (level : Z).

Record Logging : Type := { loggerOptions : list ConfigOption; klogArgs : list string }.

(** [func (m *MCPServerOptions) initializeLogging()] *)
Definition initializeLogging (m : MCPServerOptions) : Logging :=
  let loggerOptions := [Output] in
  let level := config.LogLevel (StaticConfig m) in
  if (0 <=? level)%Z
  then {| loggerOptions := loggerOptions ++ [Verbosity level];
          klogArgs := ["--v"; pretty level] |}
  else {| loggerOptions := loggerOptions; klogArgs := [] |}.

(** [func (m *MCPServerOptions) Validate() error] *)
Definition Validate (m : MCPServerOptions) : option error := None.

Section Complete.
(** [config.ReadConfig] (pkg/config, not under src/). *)
Variable ReadConfig : string -> config.StaticConfig + error.

(** [func (m *MCPServerOptions) Complete(cmd *cobra.Command) error]: the
    options after the call, the logging it set up if it got there, and the
    error; [None] when [loadFlags] panics. *)
Definition Complete (m : MCPServerOptions) (c : Command)
    : option (MCPServerOptions * option Logging * option error) :=
  let configured : MCPServerOptions + error :=
    if negb (String.eqb (ConfigPath m) "") then
      match ReadConfig (ConfigPath m) with
      | inr err => inr err
      | inl cnf => inl (withStaticConfig m cnf)
      end
    else inl m in
  match configured with
  | inr err => Some (m, None, Some err)
  | inl m =>
      match loadFlags m c with
      | None => None
      | Some m => Some (m, Some (initializeLogging m), None)
      end
  end.
End Complete.
End cmd.

(** ** Inputs taken from the tests of the repository *)

Module fixtures.
Import mcp.

Definition annotations (readOnlyHint destructiveHint : option bool) : ToolAnnotation :=
  {| Title := ""; ReadOnlyHint := readOnlyHint; DestructiveHint := destructiveHint;
     OpenWorldHint := None |}.

(** [server.ServerTool{Tool: mcp.Tool{Name: name, Annotations: ...}}] *)
Definition serverTool (name : string) (readOnlyHint destructiveHint : option bool)
    : ServerTool :=
  {| Tool_ := {| Name := name; Description := ""; InputSchema := [];
                 Annotations := annotations readOnlyHint destructiveHint |};
     Handler := None |}.

(** [Configuration{StaticConfig: &config.StaticConfig{...}}] with the four
    filter fields. *)
Definition configuration (readOnly disableDestructive : bool)
    (enabledTools disabledTools : list string) : Configuration :=
  {| Profile_ := {| GetName := "full" |};
     ListOutput := {| output.GetName := "table" |};
     StaticConfig :=
       {| config.LogLevel := 0; config.SSEPort := 0; config.HTTPPort := 0;
          config.SSEBaseURL := ""; config.KubeConfig := ""; config.ListOutput := "";
          config.ReadOnly := readOnly; config.DisableDestructive := disableDestructive;
          config.EnabledTools := enabledTools; config.DisabledTools := disabledTools |} |}.

(** The table of [TestIsToolApplicableReadOnly]: configuration, tool, expected. *)
Definition TestIsToolApplicableReadOnly : list (Configuration * ServerTool * bool) :=
  [ (configuration true false [] [], serverTool "" (Some true) None, true);
    (configuration true false [] [], serverTool "" (Some false) None, false);
    (configuration false true [] [], serverTool "" None (Some false), true);
    (configuration false true [] [], serverTool "" (Some true) (Some true), true);
    (configuration false true [] [], serverTool "" None (Some true), false);
    (configuration false false ["namespaces_list"] [],
       serverTool "namespaces_list" None None, true);
    (configuration false false [] ["namespaces_list"],
       serverTool "namespaces_list" None None, false) ].

(** The provider of the end-to-end scenario of section 8: tools A, B and Z. *)
Definition scenario : list ServerTool :=
  [ serverTool "A" (Some false) (Some true);
    serverTool "B" (Some true) (Some true);
    serverTool "Z" None (Some false) ].

(** A ClusterVersion payload: [status.desired.version] is set, the history
    has one entry, and of the five available updates two are well formed. *)
Definition clusterVersion : Unstructured :=
  {| Object := {[
       "kind" := VString "ClusterVersion";
       "status" := VMap {[
         "desired" := VMap {[ "version" := VString "4.15.9" ]};
         "history" := VSlice [ VMap {[ "version" := VString "4.15.8" ]} ];
         "availableUpdates" := VSlice [
           VMap {[ "version" := VString "4.15.10"; "image" := VString "quay.io/ocp:4.15.10" ]};
           VString "junk";
           VMap {[ "image" := VString "quay.io/ocp:none" ]};
           VMap {[ "version" := VString "" ]};
           VMap {[ "version" := VString "4.16.0"; "image" := VNumber 7 ]} ] ]} ]} |}.

(** The same cluster before the desired version is known. *)
Definition clusterVersionNoDesired : Unstructured :=
  {| Object := {[
       "status" := VMap {[
         "desired" := VMap {[ "version" := VString "" ]};
         "history" := VSlice [ VMap {[ "version" := VString "4.15.8" ]} ] ]} ]} |}.

(** A cluster that answers every fetch with [answer], and is not OpenShift
    if [notOpenShift] is an error. *)
Definition cluster (answer : Unstructured + error) (notOpenShift : option error)
    : kubernetes.Cluster :=
  {| kubernetes.dynamicList := fun _ _ _ => ([], notOpenShift);
     kubernetes.resourcesGet := fun _ _ _ _ _ => answer;
     kubernetes.ocCombinedOutput := fun _ _ => ("", None) |}.

(** Stand-ins for the tables of profiles and of output formats (pkg/mcp
    and pkg/output, not under src/), with the names that
    [NewMCPServerOptions] takes as defaults. *)
Definition ProfileNames : list string := ["full"].
Definition ProfileFromString (name : string) : option Profile :=
  if Contains ProfileNames name then Some {| GetName := name |} else None.
Definition Names : list string := ["yaml"; "table"].
Definition FromString (name : string) : option output.Output :=
  if Contains Names name then Some {| output.GetName := name |} else None.

(** The options after [--profile profile --list-output listOutput], with
    [--version] or without. *)
Definition options (profile listOutput : string) (version : bool)
    : cmd.MCPServerOptions :=
  {| cmd.Version := version; cmd.LogLevel := 0; cmd.SSEPort := 0; cmd.HttpPort := 0;
     cmd.SSEBaseUrl := ""; cmd.Kubeconfig := ""; cmd.Profile := profile;
     cmd.ListOutput := listOutput; cmd.ReadOnly := false;
     cmd.DisableDestructive := false; cmd.ConfigPath := "";
     cmd.StaticConfig := cmd.setListOutput listOutput config.zero |}.

(** The command of [NewMCPServer] after parsing a command line that sets
    the flags [set] and no other. *)
Definition command (set : list string) : cmd.Command :=
  {| cmd.Flags :=
       list_to_map (map (fun name => (name, {| cmd.Changed := Contains set name |}))
                        cmd.flagNames) |}.

(** A ClusterVersion payload with a capabilities block. *)
Definition clusterCapabilities : Unstructured :=
  {| Object := {[
       "status" := VMap {[
         "capabilities" := VMap {[
           "enabledCapabilities" := VSlice [VString "Console"; VString "Ingress"];
           "knownCapabilities" := VSlice [VString "Console"; VString "Ingress";
                                          VString "Storage"] ]} ]} ]} |}.

(** A stand-in for [output.MarshalYaml] (pkg/output, not under src/) that
    always succeeds. *)
Definition MarshalYaml (A : Type) (_ : A) : string * option error := ("...", None).

(** A call with [{"type": type}] as its arguments. *)
Definition callWithType (type : Value) : CallToolRequest :=
  {| GetArguments := {[ "type" := type ]} |}.

(** The options of [NewMCPServerOptions] after [--config path], and a
    reader of configuration files that knows no file. *)
Definition optionsWithConfig (path : string) : cmd.MCPServerOptions :=
  {| cmd.Version := false; cmd.LogLevel := 0; cmd.SSEPort := 0; cmd.HttpPort := 0;
     cmd.SSEBaseUrl := ""; cmd.Kubeconfig := ""; cmd.Profile := "full";
     cmd.ListOutput := "table"; cmd.ReadOnly := false;
     cmd.DisableDestructive := false; cmd.ConfigPath := path;
     cmd.StaticConfig := config.zero |}.

Definition ReadConfig (path : string) : config.StaticConfig + error :=
  inr (errorString ("open " +:+ path +:+ ": no such file or directory")).

(** The options of [fixtures.options] with both network ports configured. *)
Definition optionsWithPorts (ssePort httpPort : Z) : cmd.MCPServerOptions :=
  cmd.withStaticConfig (options "full" "table" false)
    (cmd.setHTTPPort httpPort (cmd.setSSEPort ssePort (cmd.setListOutput "table" config.zero))).

(** A world in which every call of [Run] succeeds. *)
Definition world : cmd.World :=
  {| cmd.newServer := fun _ => None; cmd.sseStart := fun _ => None;
     cmd.httpStart := fun _ => None; cmd.serveStdio := None |}.
End fixtures.

(** ** Vocabulary of the properties *)

Module spec.
(** A tool that claims to be read-only and destructive at once. *)
Definition contradictory (tool : mcp.ServerTool) : Prop :=
  mcp.ReadOnlyHint (mcp.Annotations (mcp.Tool_ tool)) = Some true /\
  mcp.DestructiveHint (mcp.Annotations (mcp.Tool_ tool)) = Some true.

(** A dotted path into a decoded payload, as in [status.history[0].version]. *)
Inductive Step : Type :=
| Key (key : string)
| At (i : nat).

(** The value at a path, when every step of it exists. *)
Fixpoint field (path : list Step) (v : Value) : option Value :=
  match path, v with
  | [], _ => Some v
  | Key key :: rest, VMap m =>
      match m !! key with
      | Some v' => field rest v'
      | None => None
      end
  | At i :: rest, VSlice l =>
      match l !! i with
      | Some v' => field rest v'
      | None => None
      end
  | _, _ => None
  end.

(** The field at a path, when it is a non-empty string. *)
Definition nonEmptyString (path : list Step) (v : Value) : option string :=
  match field path v with
  | Some (VString s) => if String.eqb s "" then None else Some s
  | _ => None
  end.

(** The field at a path when it is a string, the empty string otherwise. *)
Definition stringOrEmpty (path : list Step) (v : Value) : string :=
  match field path v with
  | Some (VString s) => s
  | _ => ""
  end.

(** The field at a path, when it is a map. *)
Definition mapAt (path : list Step) (v : Value) : option (gmap string Value) :=
  match field path v with
  | Some (VMap m) => Some m
  | _ => None
  end.

(** The field at a path, when it is a list. *)
Definition listAt (path : list Step) (v : Value) : option (list Value) :=
  match field path v with
  | Some (VSlice l) => Some l
  | _ => None
  end.

(** An entry of [availableUpdates] that is a map with a non-empty version
    string, and the update it stands for. *)
Definition versioned (entry : Value) : bool :=
  match nonEmptyString [Key "version"] entry with
  | Some _ => true
  | None => false
  end.

Definition toUpdate (entry : Value) : updates.Update :=
  {| updates.Version := stringOrEmpty [Key "version"] entry;
     updates.Image := stringOrEmpty [Key "image"] entry |}.

(** The payload of a fetched object. *)
Definition payload (obj : Unstructured) : Value := VMap (Object obj).

(** What a handler returns for a call that failed with [text]: the failed-call
    result carrying the text, and no transport-level error. *)
Definition failed (text : string) : mcp.CallToolResult * option error :=
  ({| mcp.Content := [text]; mcp.IsError := true |}, None).

(** The flag [name] was set on the command line. *)
Definition flagSet (c : cmd.Command) (name : string) : bool :=
  match cmd.Flags c !! name with
  | Some flag => cmd.Changed flag
  | None => false
  end.

(** The fetch of the resource failed, or what it fetched has no status map. *)
Definition noStatus (answer : Unstructured + error) : Prop :=
  match answer with
  | inr _ => True
  | inl obj => mapAt [Key "status"] (payload obj) = None
  end.

(** The strings among the items of a list, in their order. *)
Definition strings (items : list Value) : list string := omap assertString items.

(** The strings of the list at a path; none when there is no list there. *)
Definition stringsAt (path : list Step) (v : Value) : list string :=
  match listAt path v with
  | Some items => strings items
  | None => []
  end.

(** The field at a path when it is a boolean, [false] otherwise. *)
Definition boolOrFalse (path : list Step) (v : Value) : bool :=
  match field path v with
  | Some (VBool b) => b
  | _ => false
  end.

(** The history entry an entry of [status.history] stands for. *)
Definition toUpdateHistory (entry : Value) : updates.UpdateHistory :=
  {| updates.Update_ := toUpdate entry;
     updates.CompletionTime := stringOrEmpty [Key "completionTime"] entry;
     updates.StartedTime := stringOrEmpty [Key "startedTime"] entry;
     updates.State := stringOrEmpty [Key "state"] entry;
     updates.Verified := boolOrFalse [Key "verified"] entry |}.

(** What [openShiftCapabilities] answers for what the marshalling returned. *)
Definition renderedCapabilities (marshalled : string * option error)
    : mcp.CallToolResult * option error :=
  match snd marshalled with
  | Some err =>
      (mcp.NewTextResult "" (Some (Errorf_v "failed to marshal capabilities: " err)), None)
  | None =>
      (mcp.NewTextResult
         ("Cluster capabilities (YAML format):" +:+ LF +:+ fst marshalled) None, None)
  end.

(** The flags [loadFlags] reads. *)
Definition loadedFlags : list string :=
  [ "log-level"; "sse-port"; "http-port"; "sse-base-url"; "kubeconfig"; "list-output";
    "read-only"; "disable-destructive" ].

(** The configuration [base] with the options of [m] over it, for the flags
    that [set] says were given; the output format also when [base] has none. *)
Definition merged (m : cmd.MCPServerOptions) (base : config.StaticConfig)
    (set : string -> bool) : config.StaticConfig :=
  {| config.LogLevel := if set "log-level" then cmd.LogLevel m else config.LogLevel base;
     config.SSEPort := if set "sse-port" then cmd.SSEPort m else config.SSEPort base;
     config.HTTPPort := if set "http-port" then cmd.HttpPort m else config.HTTPPort base;
     config.SSEBaseURL :=
       if set "sse-base-url" then cmd.SSEBaseUrl m else config.SSEBaseURL base;
     config.KubeConfig := if set "kubeconfig" then cmd.Kubeconfig m else config.KubeConfig base;
     config.ListOutput :=
       if set "list-output" then cmd.ListOutput m
       else if String.eqb (config.ListOutput base) "" then cmd.ListOutput m
       else config.ListOutput base;
     config.ReadOnly := if set "read-only" then cmd.ReadOnly m else config.ReadOnly base;
     config.DisableDestructive :=
       if set "disable-destructive" then cmd.DisableDestructive m
       else config.DisableDestructive base;
     config.EnabledTools := config.EnabledTools base;
     config.DisabledTools := config.DisabledTools base |}.

(** The configuration the flags are loaded over: the one of the file when a
    path is given and the file reads, the one of the options when no path is
    given. *)
Definition configured (ReadConfig : string -> config.StaticConfig + error)
    (m : cmd.MCPServerOptions) : option config.StaticConfig :=
  if String.eqb (cmd.ConfigPath m) "" then Some (cmd.StaticConfig m)
  else match ReadConfig (cmd.ConfigPath m) with
       | inl cnf => Some cnf
       | inr _ => None
       end.

(** An event of [Run] that only writes: a log line or the version. *)
Definition quiet (ev : cmd.Event) : bool :=
  match ev with
  | cmd.Klog _ _ | cmd.Fprintf _ => true
  | _ => false
  end.

(** An event of [Run] on one of the three transports. *)
Definition transport (ev : cmd.Event) : bool :=
  match ev with
  | cmd.ServeSse _ | cmd.SseStart _ | cmd.SseShutdown
  | cmd.ServeHTTP | cmd.HttpStart _ | cmd.ServeStdio => true
  | _ => false
  end.

(** The line [Run] logs before it starts a network server. *)
Definition starting (server : string) (port : Z) (path : string) : cmd.Event :=
  cmd.Klog 0 (server +:+ " server starting on port " +:+ pretty port
              +:+ " and path " +:+ path).

(** What [Run] returns once the stdio server has ended with [err]. *)
Definition afterStdio (err : option error) : option error :=
  match err with
  | Some e => if isCanceled e then None else Some e
  | None => None
  end.

(** The address a server listens on for a port. *)
Definition address (port : Z) : string := ":" +:+ pretty port.

(** The one request the queries of [pkg/openshift/updates] make. *)
Definition getClusterVersion (k : kubernetes.Kubernetes) (ctx : Context)
    : kubernetes.Request :=
  kubernetes.ResourcesGet k ctx updates.ClusterVersion "" "version".
End spec.

(** * Properties *)

(** ** The visibility filter *)

Lemma Contains_In (l : list string) (s : string) : Contains l s = true <-> In s l.
Proof.
  unfold Contains. rewrite existsb_exists. split.
  - intros (x & Hin & Heq). apply String.eqb_eq in Heq. now subst.
  - intros Hin. exists s. split; [assumption | apply String.eqb_refl].
Qed.

Lemma Contains_not_In (l : list string) (s : string) : ~ In s l -> Contains l s = false.
Proof.
  intros Hn. destruct (Contains l s) eqn:E; [|reflexivity].
  apply Contains_In in E. contradiction.
Qed.

(** The model of the filter agrees with every row of the repository's table
    test. *)
Lemma isToolApplicable_table_test :
  Forall (fun row => let '(c, tool, expected) := row in
                     mcp.isToolApplicable c tool = expected)
         fixtures.TestIsToolApplicableReadOnly.
Proof. repeat constructor. Qed.

(** And with the end-to-end scenario of section 8: the catalog is B, Z. *)
Lemma buildCatalog_scenario :
  map (fun t => mcp.Name (mcp.Tool_ t))
      (mcp.buildCatalog (fixtures.configuration false true [] []) [fixtures.scenario])
  = ["B"; "Z"].
Proof. reflexivity. Qed.

(** The filter reads the annotations of a tool through [isTrue] only. *)
Lemma isTrue_Some_true (p : option bool) : isTrue p = true <-> p = Some true.
Proof. destruct p as [[|]|]; cbn; split; congruence. Qed.

(** C1.  In allow-list mode (a non-empty enabled-tool set) a tool is
    applicable if and only if its name is in the enabled-tool set; the
    disabled-tool set, the read-only flag and the disable-destructive flag
    have no effect: any configuration with the same enabled-tool set gives
    the same answer for any tool of the same name. *)
Theorem isToolApplicable_allow_list (c : mcp.Configuration) (tool : mcp.ServerTool) :
  config.EnabledTools (mcp.StaticConfig c) <> [] ->
  (mcp.isToolApplicable c tool = true <->
     In (mcp.Name (mcp.Tool_ tool)) (config.EnabledTools (mcp.StaticConfig c))) /\
  (forall (c' : mcp.Configuration) (tool' : mcp.ServerTool),
     config.EnabledTools (mcp.StaticConfig c') = config.EnabledTools (mcp.StaticConfig c) ->
     mcp.Name (mcp.Tool_ tool') = mcp.Name (mcp.Tool_ tool) ->
     mcp.isToolApplicable c' tool' = mcp.isToolApplicable c tool).
Proof.
  intros Hne. unfold mcp.isToolApplicable. split.
  - destruct (config.EnabledTools (mcp.StaticConfig c)) as [|e es] eqn:E; [congruence|].
    apply Contains_In.
  - intros c' tool' Hc Ht. rewrite Hc, Ht.
    destruct (config.EnabledTools (mcp.StaticConfig c)); [congruence | reflexivity].
Qed.

Lemma isToolApplicable_allow_list_witness :
  config.EnabledTools
    (mcp.StaticConfig (fixtures.configuration true true ["namespaces_list"] ["namespaces_list"]))
    <> [] /\
  (mcp.isToolApplicable
     (fixtures.configuration true true ["namespaces_list"] ["namespaces_list"])
     (fixtures.serverTool "namespaces_list" (Some false) (Some true)) = true <->
   In "namespaces_list" ["namespaces_list"]).
Proof.
  split; [discriminate|].
  apply (isToolApplicable_allow_list
           (fixtures.configuration true true ["namespaces_list"] ["namespaces_list"])
           (fixtures.serverTool "namespaces_list" (Some false) (Some true))).
  discriminate.
Defined.

(** C2.  Disable-destructive mode, allow-list empty, the tool not disabled
    by name, read-only mode off: a tool whose destructive annotation is true
    is applicable when its read-only annotation is true, and not applicable
    when its read-only annotation is not true. *)
Theorem isToolApplicable_disable_destructive
    (c : mcp.Configuration) (tool : mcp.ServerTool) :
  config.DisableDestructive (mcp.StaticConfig c) = true ->
  config.EnabledTools (mcp.StaticConfig c) = [] ->
  ~ In (mcp.Name (mcp.Tool_ tool)) (config.DisabledTools (mcp.StaticConfig c)) ->
  config.ReadOnly (mcp.StaticConfig c) = false ->
  mcp.DestructiveHint (mcp.Annotations (mcp.Tool_ tool)) = Some true ->
  (mcp.ReadOnlyHint (mcp.Annotations (mcp.Tool_ tool)) = Some true ->
     mcp.isToolApplicable c tool = true) /\
  (mcp.ReadOnlyHint (mcp.Annotations (mcp.Tool_ tool)) <> Some true ->
     mcp.isToolApplicable c tool = false).
Proof.
  intros Hdd Hen Hdis Hro Hd. unfold mcp.isToolApplicable.
  rewrite Hen, Hdd, Hro, Hd, (Contains_not_In _ _ Hdis). cbn.
  split; intros Hr.
  - rewrite Hr. reflexivity.
  - destruct (isTrue (mcp.ReadOnlyHint (mcp.Annotations (mcp.Tool_ tool)))) eqn:E;
      [|reflexivity].
    apply isTrue_Some_true in E. contradiction.
Qed.

Lemma isToolApplicable_disable_destructive_witness :
  mcp.isToolApplicable (fixtures.configuration false true [] [])
                       (fixtures.serverTool "" (Some true) (Some true)) = true /\
  mcp.isToolApplicable (fixtures.configuration false true [] [])
                       (fixtures.serverTool "" None (Some true)) = false.
Proof.
  split.
  - apply (isToolApplicable_disable_destructive
             (fixtures.configuration false true [] [])
             (fixtures.serverTool "" (Some true) (Some true)));
      try reflexivity.
    simpl. tauto.
  - apply (isToolApplicable_disable_destructive
             (fixtures.configuration false true [] [])
             (fixtures.serverTool "" None (Some true)));
      try reflexivity; simpl; [tauto | discriminate].
Defined.

(** ** The capability probe and the provider it gates *)

(** C4.  The capability probe [IsOpenShift] issues exactly one query, a list
    of [projects.project.openshift.io/v1] with [Limit = 1] and the timeout
    [TimeoutSeconds = 5]; its result is a boolean, [false] whenever that
    query answers with an error (of which nothing reaches the caller) and
    [true] when it answers without one. *)
Theorem IsOpenShift_probe (ctx : Context) (c : kubernetes.Cluster) :
  exists opts : metav1.ListOptions,
    metav1.TimeoutSeconds opts = Some 5%Z /\
    events (kubernetes.IsOpenShift ctx) c
      = [kubernetes.DynamicList ctx kubernetes.projects opts] /\
    result (kubernetes.IsOpenShift ctx) c
      = match snd (kubernetes.dynamicList c ctx kubernetes.projects opts) with
        | Some _ => false
        | None => true
        end.
Proof.
  exists {| metav1.Limit := 1%Z; metav1.TimeoutSeconds := Some 5%Z |}.
  unfold events, result, kubernetes.IsOpenShift. simpl.
  destruct (snd (kubernetes.dynamicList c ctx kubernetes.projects _)); auto.
Qed.

Section ProviderProperties.
Variable defaultAnnotations : mcp.ToolAnnotation.
Variable MarshalYaml : forall A : Type, A -> string * option error.
Variable TrimSpace : string -> string.
Variable Bind : mcp.CallToolRequest -> string -> list string * option error.

Local Abbreviation initOpenShift := (mcp.initOpenShift defaultAnnotations MarshalYaml).
Local Abbreviation initOcCli := (mcp.initOcCli defaultAnnotations TrimSpace Bind).

(** [initOpenShift] makes the call of the probe and no other, and returns
    no tool when the probe says no. *)
Lemma initOpenShift_run (c : kubernetes.Cluster) :
  run initOpenShift c
  = (if result (kubernetes.IsOpenShift Background) c
     then fst (run initOpenShift c) else [],
     events (kubernetes.IsOpenShift Background) c).
Proof.
  unfold mcp.initOpenShift, result, events. cbn.
  destruct (snd (kubernetes.dynamicList c Background kubernetes.projects _));
    reflexivity.
Qed.

(** C5.  When the probe answers [false] the OpenShift provider returns no
    tool (a list, there is no error to report), so the catalog is the one
    of the other providers; when it answers [true] the provider returns
    its four tools, the same whatever the cluster, all annotated
    read-only and non-destructive and each bound to a handler.  Either
    way the probe is the only call it makes. *)
Theorem initOpenShift_gated (c : kubernetes.Cluster) :
  events initOpenShift c = events (kubernetes.IsOpenShift Background) c /\
  if result (kubernetes.IsOpenShift Background) c
  then
    map (fun t => mcp.Name (mcp.Tool_ t)) (result initOpenShift c)
      = [ "cluster_version_get"; "cluster_available_updates_list";
          "cluster_capabilities_get"; "cluster_update_history_list" ] /\
    Forall (fun t =>
              mcp.ReadOnlyHint (mcp.Annotations (mcp.Tool_ t)) = Some true /\
              mcp.DestructiveHint (mcp.Annotations (mcp.Tool_ t)) = Some false /\
              is_Some (mcp.Handler t))
           (result initOpenShift c) /\
    (forall c' : kubernetes.Cluster,
       result (kubernetes.IsOpenShift Background) c' = true ->
       result initOpenShift c' = result initOpenShift c)
  else
    result initOpenShift c = [] /\
    (forall (cfg : mcp.Configuration) (others : list (list mcp.ServerTool)),
       mcp.buildCatalog cfg (result initOpenShift c :: others)
       = mcp.buildCatalog cfg others).
Proof.
  split.
  - unfold events at 1. rewrite initOpenShift_run. reflexivity.
  - destruct (result (kubernetes.IsOpenShift Background) c) eqn:Hprobe.
    + assert (Hfix : forall c', result (kubernetes.IsOpenShift Background) c' = true ->
               result initOpenShift c'
               = result initOpenShift
                   {| kubernetes.dynamicList := fun _ _ _ => ([], None);
                      kubernetes.resourcesGet := fun _ _ _ _ _ => inr contextCanceled;
                      kubernetes.ocCombinedOutput := fun _ _ => ("", None) |}).
      { intros c' Hc'. revert Hc'.
        unfold mcp.initOpenShift, kubernetes.IsOpenShift, result. cbn.
        destruct (snd (kubernetes.dynamicList c' Background kubernetes.projects _));
          [discriminate | reflexivity]. }
      rewrite (Hfix c Hprobe). split; [reflexivity|]. split.
      * repeat constructor; cbn; eauto.
      * intros c' Hc'. apply Hfix, Hc'.
    + assert (Hnil : result initOpenShift c = []).
      { unfold result. rewrite initOpenShift_run, Hprobe. reflexivity. }
      split; [exact Hnil|]. intros cfg others. rewrite Hnil. reflexivity.
Qed.
(** No tool of the two providers is annotated both read-only and
    destructive. *)
Lemma providers_not_contradictory (c : kubernetes.Cluster) (t : mcp.ServerTool) :
  In t (result initOpenShift c ++ initOcCli) -> ~ spec.contradictory t.
Proof.
  unfold result. rewrite initOpenShift_run. cbn [fst].
  destruct (result (kubernetes.IsOpenShift Background) c).
  - unfold mcp.initOpenShift. cbn.
    destruct (snd (kubernetes.dynamicList c Background kubernetes.projects _)); cbn;
      intros H [Hr Hd]; repeat (destruct H as [<-|H]); try discriminate; assumption.
  - cbn. intros [<-|[]] [Hr _]. discriminate.
Qed.
End ProviderProperties.

(** ** The queries on the ClusterVersion resource *)

(** Reading a map, then asserting a type, is following the path by one key. *)
Lemma assertMap_index (m : gmap string Value) (key : string) :
  assertMap (index m key) = spec.mapAt [spec.Key key] (VMap m).
Proof.
  unfold spec.mapAt, index. cbn. destruct (m !! key) as [[]|]; reflexivity.
Qed.

Lemma assertSlice_index (m : gmap string Value) (key : string) :
  assertSlice (index m key) = spec.listAt [spec.Key key] (VMap m).
Proof.
  unfold spec.listAt, index. cbn. destruct (m !! key) as [[]|]; reflexivity.
Qed.

Lemma assertString_index (m : gmap string Value) (key : string) :
  assertString (index m key) = match spec.field [spec.Key key] (VMap m) with
                               | Some (VString s) => Some s
                               | _ => None
                               end.
Proof.
  unfold index. cbn. destruct (m !! key) as [[]|]; reflexivity.
Qed.

(** C8.  [GetClusterVersion] returns an error when the fetch fails and when
    the payload has no status map.  Otherwise it returns
    [status.desired.version] when that is a non-empty string; otherwise
    [status.history[0].version] when that is a non-empty string; otherwise
    an error. *)
Theorem GetClusterVersion_spec
    (ctx : Context) (k : kubernetes.Kubernetes) (c : kubernetes.Cluster) :
  let returned := result (updates.GetClusterVersion ctx k) c in
  match kubernetes.resourcesGet c k ctx updates.ClusterVersion "" "version" with
  | inr _ => exists err, returned = ("", Some err)
  | inl obj =>
      match spec.mapAt [spec.Key "status"] (spec.payload obj) with
      | None => exists err, returned = ("", Some err)
      | Some _ =>
          match spec.nonEmptyString
                  [spec.Key "status"; spec.Key "desired"; spec.Key "version"]
                  (spec.payload obj) with
          | Some v => returned = (v, None)
          | None =>
              match spec.nonEmptyString
                      [spec.Key "status"; spec.Key "history"; spec.At 0; spec.Key "version"]
                      (spec.payload obj) with
              | Some v => returned = (v, None)
              | None => exists err, returned = ("", Some err)
              end
          end
      end
  end.
Proof.
  unfold result, updates.GetClusterVersion, kubernetes.ResourcesGet_, spec.payload. cbn.
  destruct (kubernetes.resourcesGet c _ _ _ _ _) as [obj|e]; cbn; [|eauto].
  unfold spec.mapAt, spec.nonEmptyString, index. cbn.
  destruct (Object obj !! "status") as [[| | | | |status]|]; cbn; eauto.
  unfold updates.nonEmpty.
  destruct (status !! "desired") as [[| | | | |desired]|]; cbn;
    try (destruct (desired !! "version") as [[| | |v| |]|]; cbn;
         try (destruct (String.eqb v ""); cbn; [|reflexivity]));
    (destruct (status !! "history") as [[| | | |history|]|]; cbn; eauto;
     destruct history as [|[| | | | |entry] history]; cbn; eauto;
     destruct (entry !! "version") as [[| | |w| |]|]; cbn; eauto;
     destruct (String.eqb w ""); cbn; eauto).
Qed.

Example GetClusterVersion_desired :
  result (updates.GetClusterVersion Background (kubernetes.Derived Background))
         (fixtures.cluster (inl fixtures.clusterVersion) None)
  = ("4.15.9", None).
Proof. vm_compute. reflexivity. Qed.

Example GetClusterVersion_history :
  result (updates.GetClusterVersion Background (kubernetes.Derived Background))
         (fixtures.cluster (inl fixtures.clusterVersionNoDesired) None)
  = ("4.15.8", None).
Proof. vm_compute. reflexivity. Qed.

(** One turn of the loop keeps the entry exactly when it is versioned. *)
Lemma appendUpdate_spec (acc : list updates.Update) (entry : Value) :
  updates.appendUpdate acc entry
  = acc ++ (if spec.versioned entry then [spec.toUpdate entry] else []).
Proof.
  unfold updates.appendUpdate, spec.versioned, spec.toUpdate, spec.nonEmptyString,
    spec.stringOrEmpty.
  destruct entry as [| | | | |m]; cbn; try (now rewrite app_nil_r).
  rewrite !assertString_index. cbn.
  destruct (m !! "version") as [[| | |v| |]|];
    destruct (m !! "image") as [[]|]; cbn;
    try (destruct (String.eqb v "") eqn:Ev; cbn);
    rewrite ?app_nil_r; reflexivity.
Qed.

Lemma fold_appendUpdate (entries : list Value) (acc : list updates.Update) :
  fold_left updates.appendUpdate entries acc
  = acc ++ map spec.toUpdate (List.filter spec.versioned entries).
Proof.
  revert acc. induction entries as [|entry entries IH]; intros acc; cbn.
  - now rewrite app_nil_r.
  - rewrite IH, appendUpdate_spec.
    destruct (spec.versioned entry); cbn; rewrite <- app_assoc; reflexivity.
Qed.

Example GetAvailableUpdates_sample :
  result (updates.GetAvailableUpdates Background (kubernetes.Derived Background))
         (fixtures.cluster (inl fixtures.clusterVersion) None)
  = ([ {| updates.Version := "4.15.10"; updates.Image := "quay.io/ocp:4.15.10" |};
       {| updates.Version := "4.16.0"; updates.Image := "" |} ], None).
Proof. vm_compute. reflexivity. Qed.

(** C9.  [GetAvailableUpdates] returns an error if and only if the fetch
    fails or the payload has no status map.  Without an error it returns the
    empty list when [status.availableUpdates] is absent or not a list, and
    otherwise the entries of that list that are maps with a non-empty
    version string, in their order, each as its version and image. *)
Theorem GetAvailableUpdates_spec
    (ctx : Context) (k : kubernetes.Kubernetes) (c : kubernetes.Cluster) :
  let returned := result (updates.GetAvailableUpdates ctx k) c in
  let answer := kubernetes.resourcesGet c k ctx updates.ClusterVersion "" "version" in
  (is_Some (snd returned) <-> spec.noStatus answer) /\
  (forall obj : Unstructured,
     answer = inl obj -> snd returned = None ->
     fst returned
     = match spec.listAt [spec.Key "status"; spec.Key "availableUpdates"]
               (spec.payload obj) with
       | None => []
       | Some entries => map spec.toUpdate (List.filter spec.versioned entries)
       end).
Proof.
  unfold result, updates.GetAvailableUpdates, kubernetes.ResourcesGet_. cbn.
  destruct (kubernetes.resourcesGet c _ _ _ _ _) as [obj|e]; cbn.
  2: { split; [split; [trivial | intros _; eexists; reflexivity] | discriminate]. }
  rewrite assertMap_index. unfold spec.payload.
  destruct (spec.mapAt [spec.Key "status"] (VMap (Object obj))) as [status|] eqn:Hstatus;
    cbn.
  - rewrite assertSlice_index.
    assert (Hl : spec.listAt [spec.Key "status"; spec.Key "availableUpdates"]
                   (VMap (Object obj))
                 = spec.listAt [spec.Key "availableUpdates"] (VMap status)).
    { unfold spec.mapAt in Hstatus. unfold spec.listAt. cbn in *.
      destruct (Object obj !! "status") as [[]|]; try discriminate.
      injection Hstatus as ->. reflexivity. }
    split.
    + split; [|discriminate].
      destruct (spec.listAt _ (VMap status)); cbn; intros [? [=]].
    + intros obj' [= <-] _. rewrite Hl.
      destruct (spec.listAt _ (VMap status)) as [entries|]; cbn; [|reflexivity].
      apply (fold_appendUpdate entries []).
  - split; [split; [trivial | intros _; eexists; reflexivity] | intros ? _ [=]].
Qed.

(** ** The handlers *)

Example openShiftClusterVersion_fetch_fails :
  result (mcp.openShiftClusterVersion Background {| mcp.GetArguments := ∅ |})
         (fixtures.cluster (inr (errorString "the server could not find the requested resource"))
                           None)
  = spec.failed ("failed to get OpenShift cluster version: "
                 +:+ "cannot retrieve OpenShift ClusterVersion resource: "
                 +:+ "the server could not find the requested resource").
Proof. reflexivity. Qed.

Section HandlerProperties.
Variable defaultAnnotations : mcp.ToolAnnotation.
Variable MarshalYaml : forall A : Type, A -> string * option error.
Variable TrimSpace : string -> string.
Variable Bind : mcp.CallToolRequest -> string -> list string * option error.

Local Abbreviation openShiftAvailableUpdates := (mcp.openShiftAvailableUpdates MarshalYaml).
Local Abbreviation openShiftCapabilities := (mcp.openShiftCapabilities MarshalYaml).
Local Abbreviation openShiftUpdateHistory := (mcp.openShiftUpdateHistory MarshalYaml).
Local Abbreviation ocCliExec := (mcp.ocCliExec TrimSpace Bind).

(** The operations stay folded while a handler is run. *)
#[local] Arguments updates.GetClusterVersion : simpl never.
#[local] Arguments updates.GetAvailableUpdates : simpl never.
#[local] Arguments updates.GetCapabilities : simpl never.
#[local] Arguments updates.GetUpdateHistory : simpl never.
#[local] Arguments kubernetes.ExecuteOcCommand : simpl never.





End HandlerProperties.

(** ** Start-up *)

Example Run_invalid_profile :
  run (cmd.Run fixtures.ProfileFromString fixtures.ProfileNames
               fixtures.FromString fixtures.Names "0.0.0"
               (fixtures.options "everything" "table" false))
      fixtures.world
  = (Some (errorString ("Invalid profile name: everything, valid names are: full" +:+ LF)),
     []).
Proof. reflexivity. Qed.

Example Run_version :
  run (cmd.Run fixtures.ProfileFromString fixtures.ProfileNames
               fixtures.FromString fixtures.Names "0.0.0"
               (fixtures.options "full" "yaml" true))
      fixtures.world
  = (None,
     [ cmd.Klog 1 "Starting kubernetes-mcp-server";
       cmd.Klog 1 " - Config: ";
       cmd.Klog 1 " - Profile: full";
       cmd.Klog 1 " - ListOutput: yaml";
       cmd.Klog 1 " - Read-only mode: false";
       cmd.Klog 1 " - Disable destructive tools: false";
       cmd.Fprintf ("0.0.0" +:+ LF) ]).
Proof. reflexivity. Qed.

Example Run_stdio :
  map (fun ev => match ev with cmd.Klog _ _ => None | _ => Some ev end)
      (events (cmd.Run fixtures.ProfileFromString fixtures.ProfileNames
                       fixtures.FromString fixtures.Names "0.0.0"
                       (fixtures.options "full" "table" false))
              fixtures.world)
  = [ None; None; None; None; None; None;
      Some (cmd.NewServer {| mcp.Profile_ := {| mcp.GetName := "full" |};
                             mcp.ListOutput := {| output.GetName := "table" |};
                             mcp.StaticConfig := cmd.setListOutput "table" config.zero |});
      Some cmd.ServeStdio; Some cmd.Close ].
Proof. reflexivity. Qed.

Example Run_sse_bind_fails :
  run (cmd.Run fixtures.ProfileFromString fixtures.ProfileNames
               fixtures.FromString fixtures.Names "0.0.0"
               (cmd.withStaticConfig (fixtures.options "full" "table" false)
                  (cmd.setSSEPort 8080 (cmd.setListOutput "table" config.zero))))
      {| cmd.newServer := fun _ => None;
         cmd.sseStart := fun _ => Some (errorString "listen tcp :8080: bind: address already in use");
         cmd.httpStart := fun _ => None;
         cmd.serveStdio := None |}
  = (Some (wrapError ("failed to start SSE server: listen tcp :8080: bind: address already in use"
                      +:+ LF)
                     (errorString "listen tcp :8080: bind: address already in use")),
     [ cmd.Klog 1 "Starting kubernetes-mcp-server";
       cmd.Klog 1 " - Config: ";
       cmd.Klog 1 " - Profile: full";
       cmd.Klog 1 " - ListOutput: table";
       cmd.Klog 1 " - Read-only mode: false";
       cmd.Klog 1 " - Disable destructive tools: false";
       cmd.NewServer {| mcp.Profile_ := {| mcp.GetName := "full" |};
                        mcp.ListOutput := {| output.GetName := "table" |};
                        mcp.StaticConfig :=
                          cmd.setSSEPort 8080 (cmd.setListOutput "table" config.zero) |};
       cmd.ServeSse "";
       cmd.Klog 0 "SSE server starting on port 8080 and path /sse";
       cmd.SseStart ":8080";
       cmd.SseShutdown;
       cmd.Close ]).
Proof. vm_compute. reflexivity. Qed.

Section RunProperties.
Variable ProfileFromString : string -> option mcp.Profile.
Variable ProfileNames : list string.
Variable FromString : string -> option output.Output.
Variable Names : list string.
Variable version_Version : string.

Local Abbreviation Run :=
  (cmd.Run ProfileFromString ProfileNames FromString Names version_Version).

(** C6.  When the profile name of the options is not a profile, or the
    output-format name of their configuration is not an output format,
    [Run] returns an error and has done nothing by then: no server was
    constructed, no transport started, nothing logged. *)
Theorem Run_rejects_invalid_configuration (m : cmd.MCPServerOptions) (w : cmd.World) :
  ProfileFromString (cmd.Profile m) = None \/
  FromString (config.ListOutput (cmd.StaticConfig m)) = None ->
  is_Some (result (Run m) w) /\ events (Run m) w = [].
Proof.
  intros H. unfold result, events, cmd.Run.
  destruct (ProfileFromString (cmd.Profile m)) as [profile|].
  - destruct H as [H|H]; [discriminate|]. rewrite H. cbn. eauto.
  - cbn. eauto.
Qed.
End RunProperties.

Lemma Run_rejects_invalid_configuration_witness :
  (fixtures.ProfileFromString (cmd.Profile (fixtures.options "full" "json" false)) = None \/
   fixtures.FromString
     (config.ListOutput (cmd.StaticConfig (fixtures.options "full" "json" false))) = None) /\
  is_Some (result (cmd.Run fixtures.ProfileFromString fixtures.ProfileNames
                           fixtures.FromString fixtures.Names "0.0.0"
                           (fixtures.options "full" "json" false))
                  fixtures.world) /\
  events (cmd.Run fixtures.ProfileFromString fixtures.ProfileNames
                  fixtures.FromString fixtures.Names "0.0.0"
                  (fixtures.options "full" "json" false))
         fixtures.world = [].
Proof.
  split; [right; reflexivity|].
  apply (Run_rejects_invalid_configuration
           fixtures.ProfileFromString fixtures.ProfileNames
           fixtures.FromString fixtures.Names "0.0.0"
           (fixtures.options "full" "json" false) fixtures.world).
  right. reflexivity.
Defined.

(** ** Flags over the configuration file *)

Lemma registered_lookup (c : cmd.Command) (name : string) :
  cmd.registered c = true -> In name cmd.flagNames ->
  exists flag, cmd.Flags c !! name = Some flag.
Proof.
  unfold cmd.registered. rewrite forallb_forall. intros H Hin.
  specialize (H name Hin). apply bool_decide_eq_true in H. exact H.
Qed.

Example loadFlags_unregistered :
  cmd.loadFlags cmd.NewMCPServerOptions {| cmd.Flags := ∅ |} = None.
Proof. reflexivity. Qed.

(** C10.  On the command of [NewMCPServer], [loadFlags] returns the options
    with a new configuration in which every field is the value of the
    option if its flag was set on the command line and the value it had
    (the one of the configuration file) if not; [ListOutput] also takes the
    value of the option when it was empty; the fields without a flag keep
    their values. *)
Theorem loadFlags_frame (m : cmd.MCPServerOptions) (c : cmd.Command) :
  cmd.registered c = true ->
  exists sc' : config.StaticConfig,
    cmd.loadFlags m c = Some (cmd.withStaticConfig m sc') /\
    config.LogLevel sc'
      = (if spec.flagSet c "log-level" then cmd.LogLevel m
         else config.LogLevel (cmd.StaticConfig m)) /\
    config.SSEPort sc'
      = (if spec.flagSet c "sse-port" then cmd.SSEPort m
         else config.SSEPort (cmd.StaticConfig m)) /\
    config.HTTPPort sc'
      = (if spec.flagSet c "http-port" then cmd.HttpPort m
         else config.HTTPPort (cmd.StaticConfig m)) /\
    config.SSEBaseURL sc'
      = (if spec.flagSet c "sse-base-url" then cmd.SSEBaseUrl m
         else config.SSEBaseURL (cmd.StaticConfig m)) /\
    config.KubeConfig sc'
      = (if spec.flagSet c "kubeconfig" then cmd.Kubeconfig m
         else config.KubeConfig (cmd.StaticConfig m)) /\
    config.ListOutput sc'
      = (if spec.flagSet c "list-output" then cmd.ListOutput m
         else if String.eqb (config.ListOutput (cmd.StaticConfig m)) "" then cmd.ListOutput m
         else config.ListOutput (cmd.StaticConfig m)) /\
    config.ReadOnly sc'
      = (if spec.flagSet c "read-only" then cmd.ReadOnly m
         else config.ReadOnly (cmd.StaticConfig m)) /\
    config.DisableDestructive sc'
      = (if spec.flagSet c "disable-destructive" then cmd.DisableDestructive m
         else config.DisableDestructive (cmd.StaticConfig m)) /\
    config.EnabledTools sc' = config.EnabledTools (cmd.StaticConfig m) /\
    config.DisabledTools sc' = config.DisabledTools (cmd.StaticConfig m).
Proof.
  intros Hreg.
  destruct (registered_lookup c "log-level" Hreg) as [[f1] H1]; [cbn; tauto|].
  destruct (registered_lookup c "sse-port" Hreg) as [[f2] H2]; [cbn; tauto|].
  destruct (registered_lookup c "http-port" Hreg) as [[f3] H3]; [cbn; tauto|].
  destruct (registered_lookup c "sse-base-url" Hreg) as [[f4] H4]; [cbn; tauto|].
  destruct (registered_lookup c "kubeconfig" Hreg) as [[f5] H5]; [cbn; tauto|].
  destruct (registered_lookup c "list-output" Hreg) as [[f6] H6]; [cbn; tauto|].
  destruct (registered_lookup c "read-only" Hreg) as [[f7] H7]; [cbn; tauto|].
  destruct (registered_lookup c "disable-destructive" Hreg) as [[f8] H8]; [cbn; tauto|].
  unfold cmd.loadFlags, cmd.changed, spec.flagSet.
  rewrite H1, H2, H3, H4, H5, H6, H7, H8. cbn.
  eexists. split; [reflexivity|].
  destruct f1, f2, f3, f4, f5, f7, f8; cbn;
    destruct f6; cbn;
    try destruct (String.eqb (config.ListOutput (cmd.StaticConfig m)) ""); cbn;
    repeat split; reflexivity.
Qed.

Lemma loadFlags_frame_witness :
  cmd.registered (fixtures.command ["sse-port"]) = true /\
  exists sc' : config.StaticConfig,
    cmd.loadFlags (cmd.withStaticConfig (fixtures.options "full" "yaml" false) config.zero)
                  (fixtures.command ["sse-port"])
    = Some (cmd.withStaticConfig (fixtures.options "full" "yaml" false) sc') /\
    config.ListOutput sc' = "yaml" /\
    config.ReadOnly sc' = false.
Proof.
  assert (Hreg : cmd.registered (fixtures.command ["sse-port"]) = true)
    by (vm_compute; reflexivity).
  split; [exact Hreg|].
  destruct (loadFlags_frame
              (cmd.withStaticConfig (fixtures.options "full" "yaml" false) config.zero)
              (fixtures.command ["sse-port"]) Hreg)
    as (sc' & Hload & _ & _ & _ & _ & _ & Hlist & Hro & _).
  exists sc'. split; [exact Hload|]. rewrite Hlist, Hro. split; vm_compute; reflexivity.
Defined.

(** The option [--list-output] reaches [Run] through [loadFlags]: when the
    flag was set to a name that is not an output format, [Run] on the
    options after [loadFlags] returns an error and has done nothing. *)
Lemma Run_after_loadFlags_rejects_invalid_output
    (ProfileFromString : string -> option mcp.Profile) (ProfileNames : list string)
    (FromString : string -> option output.Output) (Names : list string)
    (version_Version : string)
    (m m' : cmd.MCPServerOptions) (c : cmd.Command) (w : cmd.World) :
  cmd.registered c = true ->
  spec.flagSet c "list-output" = true ->
  FromString (cmd.ListOutput m) = None ->
  cmd.loadFlags m c = Some m' ->
  run (cmd.Run ProfileFromString ProfileNames FromString Names version_Version m') w
  = (result (cmd.Run ProfileFromString ProfileNames FromString Names version_Version m') w,
     []) /\
  is_Some (result (cmd.Run ProfileFromString ProfileNames FromString Names
                           version_Version m') w).
Proof.
  intros Hreg Hset Hbad Hload.
  assert (Hout : config.ListOutput (cmd.StaticConfig m') = cmd.ListOutput m).
  { destruct (registered_lookup c "log-level" Hreg) as [[f1] H1]; [cbn; tauto|].
    destruct (registered_lookup c "sse-port" Hreg) as [[f2] H2]; [cbn; tauto|].
    destruct (registered_lookup c "http-port" Hreg) as [[f3] H3]; [cbn; tauto|].
    destruct (registered_lookup c "sse-base-url" Hreg) as [[f4] H4]; [cbn; tauto|].
    destruct (registered_lookup c "kubeconfig" Hreg) as [[f5] H5]; [cbn; tauto|].
    destruct (registered_lookup c "list-output" Hreg) as [[f6] H6]; [cbn; tauto|].
    destruct (registered_lookup c "read-only" Hreg) as [[f7] H7]; [cbn; tauto|].
    destruct (registered_lookup c "disable-destructive" Hreg) as [[f8] H8]; [cbn; tauto|].
    unfold spec.flagSet in Hset. rewrite H6 in Hset. cbn in Hset. subst f6.
    unfold cmd.loadFlags, cmd.changed in Hload.
    rewrite H1, H2, H3, H4, H5, H6, H7, H8 in Hload. cbn in Hload.
    injection Hload as <-. destruct f7, f8; reflexivity. }
  unfold result, cmd.Run. rewrite Hout, Hbad.
  destruct (ProfileFromString (cmd.Profile m')); cbn; eauto.
Qed.

(** * Further properties of the code *)

(** ** [pkg/openshift/updates] *)

Lemma fold_convert (input : list Value) (acc : list string) :
  fold_left (fun ret item => match assertString item with
                             | Some s => ret ++ [s]
                             | None => ret
                             end) input acc
  = acc ++ omap assertString input.
Proof.
  revert acc. induction input as [|item input IH]; intros acc; cbn.
  - now rewrite app_nil_r.
  - rewrite IH. destruct (assertString item); cbn; [|reflexivity].
    now rewrite <- app_assoc.
Qed.

(** X1.  [convertInterfaceSliceToStringSlice] returns the items that are
    strings, in their order, and drops every other item: a string is in the
    result exactly when it is an item of the input, and the result is never
    longer than the input. *)
Theorem convertInterfaceSliceToStringSlice_strings (input : list Value) :
  updates.convertInterfaceSliceToStringSlice input = spec.strings input /\
  (forall s : string,
     In s (updates.convertInterfaceSliceToStringSlice input) <-> In (VString s) input) /\
  length (updates.convertInterfaceSliceToStringSlice input) <= length input.
Proof.
  unfold updates.convertInterfaceSliceToStringSlice, spec.strings.
  rewrite (fold_convert input []). cbn. split; [reflexivity|]. split.
  - intros s. rewrite <- !list_elem_of_In, list_elem_of_omap. split.
    + intros (v & Hv & Hs). destruct v; try discriminate.
      cbn in Hs. now injection Hs as ->.
    + intros Hin. exists (VString s). split; [assumption | reflexivity].
  - induction input as [|v input IH]; cbn; [lia|].
    destruct (assertString v); cbn; lia.
Qed.

(** X2.  On a list of strings the conversion gives the strings back, and
    the conversion of a concatenation is the concatenation of the
    conversions. *)
Theorem convertInterfaceSliceToStringSlice_round_trip (l : list string) (a b : list Value) :
  updates.convertInterfaceSliceToStringSlice (map VString l) = l /\
  updates.convertInterfaceSliceToStringSlice (a ++ b)
  = updates.convertInterfaceSliceToStringSlice a
    ++ updates.convertInterfaceSliceToStringSlice b.
Proof.
  unfold updates.convertInterfaceSliceToStringSlice.
  rewrite !fold_convert. cbn. split.
  - induction l as [|s l IH]; cbn; [reflexivity|]. now rewrite IH.
  - apply omap_app.
Qed.

Lemma assertBool_index (m : gmap string Value) (key : string) :
  default false (assertBool (index m key)) = spec.boolOrFalse [spec.Key key] (VMap m).
Proof.
  unfold spec.boolOrFalse, index. cbn. destruct (m !! key) as [[]|]; reflexivity.
Qed.

Lemma stringField_index (m : gmap string Value) (key : string) :
  updates.stringField m key = spec.stringOrEmpty [spec.Key key] (VMap m).
Proof.
  unfold updates.stringField, spec.stringOrEmpty, index. cbn.
  destruct (m !! key) as [[]|]; reflexivity.
Qed.

(** One turn of the loop of [GetUpdateHistory] keeps the entry exactly when
    it is versioned. *)
Lemma appendHistory_spec (acc : list updates.UpdateHistory) (entry : Value) :
  updates.appendHistory acc entry
  = acc ++ (if spec.versioned entry then [spec.toUpdateHistory entry] else []).
Proof.
  unfold updates.appendHistory, spec.versioned, spec.toUpdateHistory, spec.toUpdate,
    spec.nonEmptyString.
  destruct entry as [| | | | |m]; cbn; try (now rewrite app_nil_r).
  rewrite !stringField_index, assertBool_index. unfold spec.stringOrEmpty. cbn.
  destruct (m !! "version") as [[| | |v| |]|]; cbn; rewrite ?app_nil_r; try reflexivity.
  destruct (String.eqb v ""); cbn; rewrite ?app_nil_r; reflexivity.
Qed.

Lemma fold_appendHistory (entries : list Value) (acc : list updates.UpdateHistory) :
  fold_left updates.appendHistory entries acc
  = acc ++ map spec.toUpdateHistory (List.filter spec.versioned entries).
Proof.
  revert acc. induction entries as [|entry entries IH]; intros acc; cbn.
  - now rewrite app_nil_r.
  - rewrite IH, appendHistory_spec.
    destruct (spec.versioned entry); cbn; rewrite <- app_assoc; reflexivity.
Qed.

(** What the two list queries return, by cases on the answer of the fetch. *)
Lemma GetAvailableUpdates_run
    (ctx : Context) (k : kubernetes.Kubernetes) (c : kubernetes.Cluster) :
  result (updates.GetAvailableUpdates ctx k) c
  = match kubernetes.resourcesGet c k ctx updates.ClusterVersion "" "version" with
    | inr err =>
        ([], Some (Errorf_w "cannot retrieve OpenShift ClusterVersion resource: " err ""))
    | inl obj =>
        match spec.mapAt [spec.Key "status"] (spec.payload obj) with
        | None => ([], Some (errorString "unexpected ClusterVersion payload: missing status"))
        | Some status =>
            (match spec.listAt [spec.Key "availableUpdates"] (VMap status) with
             | None => []
             | Some entries => map spec.toUpdate (List.filter spec.versioned entries)
             end, None)
        end
    end.
Proof.
  unfold result, updates.GetAvailableUpdates, kubernetes.ResourcesGet_. cbn.
  destruct (kubernetes.resourcesGet c _ _ _ _ _) as [obj|e]; cbn; [|reflexivity].
  rewrite assertMap_index. unfold spec.payload.
  destruct (spec.mapAt _ (VMap (Object obj))) as [status|]; cbn; [|reflexivity].
  rewrite assertSlice_index.
  destruct (spec.listAt _ (VMap status)) as [entries|]; cbn; [|reflexivity].
  now rewrite (fold_appendUpdate entries []).
Qed.

Lemma GetUpdateHistory_run
    (ctx : Context) (k : kubernetes.Kubernetes) (c : kubernetes.Cluster) :
  result (updates.GetUpdateHistory ctx k) c
  = match kubernetes.resourcesGet c k ctx updates.ClusterVersion "" "version" with
    | inr err =>
        ([], Some (Errorf_w "cannot retrieve OpenShift ClusterVersion resource: " err ""))
    | inl obj =>
        match spec.mapAt [spec.Key "status"] (spec.payload obj) with
        | None => ([], Some (errorString "unexpected ClusterVersion payload: missing status"))
        | Some status =>
            (match spec.listAt [spec.Key "history"] (VMap status) with
             | None => []
             | Some entries => map spec.toUpdateHistory (List.filter spec.versioned entries)
             end, None)
        end
    end.
Proof.
  unfold result, updates.GetUpdateHistory, kubernetes.ResourcesGet_. cbn.
  destruct (kubernetes.resourcesGet c _ _ _ _ _) as [obj|e]; cbn; [|reflexivity].
  rewrite assertMap_index. unfold spec.payload.
  destruct (spec.mapAt _ (VMap (Object obj))) as [status|]; cbn; [|reflexivity].
  rewrite assertSlice_index.
  destruct (spec.listAt _ (VMap status)) as [entries|]; cbn; [|reflexivity].
  now rewrite (fold_appendHistory entries []).
Qed.

(** A path below [status] is a path in the status map. *)
Lemma field_status (obj : Unstructured) (status : gmap string Value)
    (path : list spec.Step) :
  spec.mapAt [spec.Key "status"] (spec.payload obj) = Some status ->
  spec.field (spec.Key "status" :: path) (spec.payload obj) = spec.field path (VMap status).
Proof.
  unfold spec.mapAt, spec.payload. cbn.
  destruct (Object obj !! "status") as [[]|]; try discriminate.
  now intros [= ->].
Qed.

Example GetUpdateHistory_sample :
  result (updates.GetUpdateHistory Background (kubernetes.Derived Background))
         (fixtures.cluster (inl fixtures.clusterVersion) None)
  = ([ {| updates.Update_ := {| updates.Version := "4.15.8"; updates.Image := "" |};
          updates.CompletionTime := ""; updates.StartedTime := ""; updates.State := "";
          updates.Verified := false |} ], None).
Proof. vm_compute. reflexivity. Qed.

(** X3.  [GetUpdateHistory] returns an error if and only if the fetch fails
    or the payload has no status map.  Without an error it returns the empty
    list when [status.history] is absent or not a list, and otherwise the
    entries of that list that are maps with a non-empty version string, in
    their order, each with its string fields (empty when absent or not a
    string) and its [verified] flag (false when absent or not a boolean). *)
Theorem GetUpdateHistory_spec
    (ctx : Context) (k : kubernetes.Kubernetes) (c : kubernetes.Cluster) :
  let returned := result (updates.GetUpdateHistory ctx k) c in
  let answer := kubernetes.resourcesGet c k ctx updates.ClusterVersion "" "version" in
  (is_Some (snd returned) <-> spec.noStatus answer) /\
  (forall obj : Unstructured,
     answer = inl obj -> snd returned = None ->
     fst returned
     = match spec.listAt [spec.Key "status"; spec.Key "history"] (spec.payload obj) with
       | None => []
       | Some entries => map spec.toUpdateHistory (List.filter spec.versioned entries)
       end).
Proof.
  cbn zeta. rewrite GetUpdateHistory_run.
  destruct (kubernetes.resourcesGet c k ctx _ _ _) as [obj|e]; cbn.
  2: { split; [split; [trivial | intros _; eexists; reflexivity] | discriminate]. }
  destruct (spec.mapAt [spec.Key "status"] (spec.payload obj)) as [status|] eqn:Hs; cbn.
  - split.
    + split; [intros [? [=]] | discriminate].
    + intros obj' [= <-] _. unfold spec.listAt.
      now rewrite (field_status _ _ _ Hs).
  - split; [split; [trivial | intros _; eexists; reflexivity] | intros ? _ [=]].
Qed.

Lemma versioned_toUpdate (entry : Value) :
  spec.versioned entry = true -> updates.Version (spec.toUpdate entry) <> "".
Proof.
  unfold spec.versioned, spec.toUpdate, spec.nonEmptyString, spec.stringOrEmpty.
  cbn [updates.Version].
  destruct (spec.field [spec.Key "version"] entry) as [[| | |v| |]|]; try discriminate.
  destruct (String.eqb v "") eqn:E; [discriminate|].
  intros _. now apply String.eqb_neq.
Qed.

(** X4.  No update that [GetAvailableUpdates] returns and no entry that
    [GetUpdateHistory] returns has an empty version. *)
Theorem returned_versions_not_empty
    (ctx : Context) (k : kubernetes.Kubernetes) (c : kubernetes.Cluster) :
  Forall (fun upd => updates.Version upd <> "")
         (fst (result (updates.GetAvailableUpdates ctx k) c)) /\
  Forall (fun uh => updates.Version (updates.Update_ uh) <> "")
         (fst (result (updates.GetUpdateHistory ctx k) c)).
Proof.
  rewrite GetAvailableUpdates_run, GetUpdateHistory_run.
  destruct (kubernetes.resourcesGet c k ctx _ _ _) as [obj|e]; cbn;
    [|split; apply List.Forall_nil].
  destruct (spec.mapAt _ (spec.payload obj)) as [status|]; cbn;
    [|split; apply List.Forall_nil].
  split.
  - destruct (spec.listAt _ (VMap status)) as [entries|]; [|apply List.Forall_nil].
    apply List.Forall_forall. intros upd Hin.
    apply in_map_iff in Hin as (entry & <- & Hin). apply filter_In in Hin as [_ Hv].
    now apply versioned_toUpdate.
  - destruct (spec.listAt _ (VMap status)) as [entries|]; [|apply List.Forall_nil].
    apply List.Forall_forall. intros uh Hin.
    apply in_map_iff in Hin as (entry & <- & Hin). apply filter_In in Hin as [_ Hv].
    now apply versioned_toUpdate.
Qed.

Lemma nonEmptyString_Some (path : list spec.Step) (v : Value) (s : string) :
  spec.nonEmptyString path v = Some s -> spec.field path v = Some (VString s) /\ s <> "".
Proof.
  unfold spec.nonEmptyString. destruct (spec.field path v) as [[| | |w| |]|]; try discriminate.
  destruct (String.eqb w "") eqn:E; [discriminate|].
  intros [= ->]. split; [reflexivity | now apply String.eqb_neq].
Qed.

(** What [GetClusterVersion] returns, by cases on the answer of the fetch. *)
Lemma GetClusterVersion_run
    (ctx : Context) (k : kubernetes.Kubernetes) (c : kubernetes.Cluster) :
  result (updates.GetClusterVersion ctx k) c
  = match kubernetes.resourcesGet c k ctx updates.ClusterVersion "" "version" with
    | inr err =>
        ("", Some (Errorf_w "cannot retrieve OpenShift ClusterVersion resource: " err ""))
    | inl obj =>
        match spec.mapAt [spec.Key "status"] (spec.payload obj) with
        | None => ("", Some (errorString "unexpected ClusterVersion payload: missing status"))
        | Some status =>
            match spec.nonEmptyString [spec.Key "desired"; spec.Key "version"]
                    (VMap status) with
            | Some v => (v, None)
            | None =>
                match spec.nonEmptyString
                        [spec.Key "history"; spec.At 0; spec.Key "version"]
                        (VMap status) with
                | Some v => (v, None)
                | None =>
                    ("", Some (errorString "version field not found in ClusterVersion status"))
                end
            end
        end
    end.
Proof.
  unfold result, updates.GetClusterVersion, kubernetes.ResourcesGet_, spec.payload. cbn.
  destruct (kubernetes.resourcesGet c _ _ _ _ _) as [obj|e]; cbn; [|reflexivity].
  unfold spec.mapAt, spec.nonEmptyString, index. cbn.
  destruct (Object obj !! "status") as [[| | | | |status]|]; cbn; try reflexivity.
  unfold updates.nonEmpty.
  destruct (status !! "desired") as [[| | | | |desired]|]; cbn;
    try (destruct (desired !! "version") as [[| | |v| |]|]; cbn;
         try (destruct (String.eqb v ""); cbn; [|reflexivity]));
    (destruct (status !! "history") as [[| | | |history|]|]; cbn; try reflexivity;
     destruct history as [|[| | | | |entry] history]; cbn; try reflexivity;
     destruct (entry !! "version") as [[| | |w| |]|]; cbn; try reflexivity;
     destruct (String.eqb w ""); cbn; reflexivity).
Qed.

(** X5.  [GetClusterVersion] never returns an empty version without an
    error, and with an error the version it returns is empty. *)
Theorem GetClusterVersion_not_empty
    (ctx : Context) (k : kubernetes.Kubernetes) (c : kubernetes.Cluster) :
  match snd (result (updates.GetClusterVersion ctx k) c) with
  | None => fst (result (updates.GetClusterVersion ctx k) c) <> ""
  | Some _ => fst (result (updates.GetClusterVersion ctx k) c) = ""
  end.
Proof.
  rewrite GetClusterVersion_run.
  destruct (kubernetes.resourcesGet c k ctx _ _ _) as [obj|e]; cbn; [|reflexivity].
  destruct (spec.mapAt _ (spec.payload obj)) as [status|]; cbn; [|reflexivity].
  destruct (spec.nonEmptyString [spec.Key "desired"; _] _) as [v|] eqn:Hd; cbn.
  { now apply nonEmptyString_Some in Hd. }
  destruct (spec.nonEmptyString [spec.Key "history"; _; _] _) as [v|] eqn:Hh; cbn.
  { now apply nonEmptyString_Some in Hh. }
  reflexivity.
Qed.

(** X6.  When the desired version is missing and [GetClusterVersion] still
    returns a version, it is the version of the first entry that
    [GetUpdateHistory] returns for the same cluster. *)
Theorem GetClusterVersion_fallback_is_latest_history
    (ctx : Context) (k : kubernetes.Kubernetes) (c : kubernetes.Cluster)
    (obj : Unstructured) (v : string) :
  kubernetes.resourcesGet c k ctx updates.ClusterVersion "" "version" = inl obj ->
  spec.nonEmptyString [spec.Key "status"; spec.Key "desired"; spec.Key "version"]
    (spec.payload obj) = None ->
  result (updates.GetClusterVersion ctx k) c = (v, None) ->
  exists (uh : updates.UpdateHistory) (older : list updates.UpdateHistory),
    result (updates.GetUpdateHistory ctx k) c = (uh :: older, None) /\
    updates.Version (updates.Update_ uh) = v.
Proof.
  intros Hget Hdesired. rewrite GetClusterVersion_run, GetUpdateHistory_run, Hget.
  destruct (spec.mapAt [spec.Key "status"] (spec.payload obj)) as [status|] eqn:Hs;
    [|discriminate].
  unfold spec.nonEmptyString in Hdesired. rewrite (field_status _ _ _ Hs) in Hdesired.
  fold (spec.nonEmptyString [spec.Key "desired"; spec.Key "version"] (VMap status))
    in Hdesired.
  rewrite Hdesired.
  destruct (spec.nonEmptyString [spec.Key "history"; _; _] _) as [w|] eqn:Hh;
    [|discriminate].
  intros [= ->]. apply nonEmptyString_Some in Hh as [Hf Hne].
  unfold spec.listAt. cbn in Hf |- *.
  destruct (status !! "history") as [[| | | |[|entry entries]|]|]; try discriminate.
  cbn in Hf. destruct entry as [| | | | |m]; try discriminate.
  destruct (m !! "version") as [ver|] eqn:Hver; [|discriminate].
  injection Hf as ->.
  assert (Hv : spec.versioned (VMap m) = true).
  { unfold spec.versioned, spec.nonEmptyString. cbn. rewrite Hver.
    apply String.eqb_neq in Hne. now rewrite Hne. }
  cbn [List.filter]. rewrite Hv. cbn [map]. eexists _, _. split; [reflexivity|].
  unfold spec.toUpdateHistory, spec.toUpdate, spec.stringOrEmpty. cbn. now rewrite Hver.
Qed.

Lemma GetClusterVersion_fallback_is_latest_history_witness :
  exists (uh : updates.UpdateHistory) (older : list updates.UpdateHistory),
    result (updates.GetUpdateHistory Background (kubernetes.Derived Background))
           (fixtures.cluster (inl fixtures.clusterVersionNoDesired) None)
    = (uh :: older, None) /\
    updates.Version (updates.Update_ uh) = "4.15.8".
Proof.
  apply (GetClusterVersion_fallback_is_latest_history
           Background (kubernetes.Derived Background)
           (fixtures.cluster (inl fixtures.clusterVersionNoDesired) None)
           fixtures.clusterVersionNoDesired "4.15.8");
    vm_compute; reflexivity.
Defined.

Example GetCapabilities_sample :
  result (updates.GetCapabilities Background (kubernetes.Derived Background))
         (fixtures.cluster
            (inl {| Object := {[ "status" := VMap {[ "capabilities" := VMap {[
                      "enabledCapabilities" := VSlice [VString "Console"; VNumber 3;
                                                       VString "Ingress"];
                      "knownCapabilities" := VString "all" ]} ]} ]} |})
            None)
  = ({| updates.Enabled := ["Console"; "Ingress"]; updates.Known := [] |}, None).
Proof. vm_compute. reflexivity. Qed.

(** X7.  [GetCapabilities] returns an error when the fetch fails, when the
    payload has no status map ("missing status") and when the status has no
    capabilities map ("capabilities not found"), each time with the empty
    capabilities.  Otherwise it returns no error, and as enabled and as
    known capabilities the strings of [enabledCapabilities] and of
    [knownCapabilities], none for a field that is absent or not a list. *)
Theorem GetCapabilities_spec
    (ctx : Context) (k : kubernetes.Kubernetes) (c : kubernetes.Cluster) :
  let returned := result (updates.GetCapabilities ctx k) c in
  let none := {| updates.Enabled := []; updates.Known := [] |} in
  match kubernetes.resourcesGet c k ctx updates.ClusterVersion "" "version" with
  | inr _ => fst returned = none /\ is_Some (snd returned)
  | inl obj =>
      match spec.mapAt [spec.Key "status"] (spec.payload obj),
            spec.mapAt [spec.Key "status"; spec.Key "capabilities"] (spec.payload obj) with
      | None, _ =>
          returned
          = (none, Some (errorString "unexpected ClusterVersion payload: missing status"))
      | Some _, None =>
          returned
          = (none, Some (errorString "capabilities not found in ClusterVersion status"))
      | Some _, Some _ =>
          returned
          = ({| updates.Enabled :=
                  spec.stringsAt [spec.Key "status"; spec.Key "capabilities";
                                  spec.Key "enabledCapabilities"] (spec.payload obj);
                updates.Known :=
                  spec.stringsAt [spec.Key "status"; spec.Key "capabilities";
                                  spec.Key "knownCapabilities"] (spec.payload obj) |},
             None)
      end
  end.
Proof.
  unfold result, updates.GetCapabilities, kubernetes.ResourcesGet_, spec.payload. cbn.
  destruct (kubernetes.resourcesGet c _ _ _ _ _) as [obj|e]; cbn.
  2: { split; [reflexivity | eexists; reflexivity]. }
  unfold spec.mapAt, spec.stringsAt, spec.listAt, spec.strings, index,
    updates.convertInterfaceSliceToStringSlice. cbn.
  destruct (Object obj !! "status") as [[| | | | |status]|]; cbn; try reflexivity.
  destruct (status !! "capabilities") as [[| | | | |caps]|]; cbn; try reflexivity.
  destruct (caps !! "enabledCapabilities") as [[| | | |enabled|]|];
    destruct (caps !! "knownCapabilities") as [[| | | |known|]|]; cbn;
    rewrite ?fold_convert; reflexivity.
Qed.

(** X8.  Each query of the package makes exactly one call: a get of the
    cluster-scoped ClusterVersion named "version", with the handle and the
    context it was given; whatever the cluster answers. *)
Theorem queries_get_once
    (ctx : Context) (k : kubernetes.Kubernetes) (c : kubernetes.Cluster) :
  events (updates.GetClusterVersion ctx k) c = [spec.getClusterVersion k ctx] /\
  events (updates.GetAvailableUpdates ctx k) c = [spec.getClusterVersion k ctx] /\
  events (updates.GetCapabilities ctx k) c = [spec.getClusterVersion k ctx] /\
  events (updates.GetUpdateHistory ctx k) c = [spec.getClusterVersion k ctx].
Proof.
  unfold events, updates.GetClusterVersion, updates.GetAvailableUpdates,
    updates.GetCapabilities, updates.GetUpdateHistory, kubernetes.ResourcesGet_,
    spec.getClusterVersion.
  cbn.
  destruct (kubernetes.resourcesGet c _ _ _ _ _) as [obj|e]; cbn;
    [|repeat split; reflexivity].
  destruct (assertMap (index (Object obj) "status")) as [status|]; cbn;
    [|repeat split; reflexivity].
  repeat split.
  - destruct (andThen (assertMap (index status "desired")) _); cbn; [reflexivity|].
    destruct (andThen (assertSlice (index status "history")) _); reflexivity.
  - destruct (assertSlice (index status "availableUpdates")); reflexivity.
  - destruct (assertMap (index status "capabilities")); reflexivity.
  - destruct (assertSlice (index status "history")); reflexivity.
Qed.

Lemma append_empty_r (s : string) : s +:+ "" = s.
Proof.
  induction s as [|a s IH]; [reflexivity|].
  change (String a (s +:+ "") = String a s). now rewrite IH.
Qed.

(** X9.  When the fetch fails, every query returns an error that wraps its
    cause: the text is "cannot retrieve OpenShift ClusterVersion resource: "
    followed by the text of the cause, and a cancelled fetch is still
    recognised as a cancellation. *)
Theorem queries_wrap_fetch_error
    (ctx : Context) (k : kubernetes.Kubernetes) (c : kubernetes.Cluster) (cause : error) :
  kubernetes.resourcesGet c k ctx updates.ClusterVersion "" "version" = inr cause ->
  exists err : error,
    Error err = "cannot retrieve OpenShift ClusterVersion resource: " +:+ Error cause /\
    isCanceled err = isCanceled cause /\
    snd (result (updates.GetClusterVersion ctx k) c) = Some err /\
    snd (result (updates.GetAvailableUpdates ctx k) c) = Some err /\
    snd (result (updates.GetCapabilities ctx k) c) = Some err /\
    snd (result (updates.GetUpdateHistory ctx k) c) = Some err.
Proof.
  intros Hget.
  exists (Errorf_w "cannot retrieve OpenShift ClusterVersion resource: " cause "").
  split.
  { unfold Errorf_w. cbn [Error]. now rewrite append_empty_r. }
  unfold result, updates.GetClusterVersion, updates.GetAvailableUpdates,
    updates.GetCapabilities, updates.GetUpdateHistory, kubernetes.ResourcesGet_.
  cbn. rewrite Hget. cbn. repeat split; reflexivity.
Qed.

Lemma queries_wrap_fetch_error_witness :
  exists err : error,
    Error err = "cannot retrieve OpenShift ClusterVersion resource: context canceled" /\
    isCanceled err = true /\
    snd (result (updates.GetClusterVersion Background (kubernetes.Derived Background))
                (fixtures.cluster (inr contextCanceled) None)) = Some err.
Proof.
  destruct (queries_wrap_fetch_error Background (kubernetes.Derived Background)
              (fixtures.cluster (inr contextCanceled) None) contextCanceled eq_refl)
    as (err & Htext & Hcancel & Hversion & _).
  exists err. repeat split; assumption.
Defined.

(** ** [pkg/mcp/openshift.go] and [pkg/kubernetes/openshift.go] *)

Section MoreHandlerProperties.
Variable MarshalYaml : forall A : Type, A -> string * option error.
Variable TrimSpace : string -> string.
Variable Bind : mcp.CallToolRequest -> string -> list string * option error.

Local Abbreviation openShiftAvailableUpdates := (mcp.openShiftAvailableUpdates MarshalYaml).
Local Abbreviation openShiftCapabilities := (mcp.openShiftCapabilities MarshalYaml).
Local Abbreviation openShiftUpdateHistory := (mcp.openShiftUpdateHistory MarshalYaml).
Local Abbreviation ocCliExec := (mcp.ocCliExec TrimSpace Bind).

(** The events of a bind are those of its parts. *)
Lemma events_bind {Env Ev A B : Type} (m : Eff Env Ev A) (f : A -> Eff Env Ev B) (env : Env) :
  events (bind m f) env = events m env ++ events (f (result m env)) env.
Proof.
  unfold events, result. cbn. destruct (run m env) as [a t1]. cbn.
  destruct (run (f a) env) as [b t2]. reflexivity.
Qed.

Lemma result_bind {Env Ev A B : Type} (m : Eff Env Ev A) (f : A -> Eff Env Ev B) (env : Env) :
  result (bind m f) env = result (f (result m env)) env.
Proof.
  unfold result. cbn. destruct (run m env) as [a t1]. cbn.
  destruct (run (f a) env) as [b t2]. reflexivity.
Qed.

(** X10.  [ocCliExec] runs [oc] only when the arguments of the call bind to
    a list of strings, then exactly once and with exactly those arguments
    ([ExecuteOcCommand]); when they do not bind it runs nothing.  The output
    of the command is trimmed whether it succeeded or failed, and a failure
    is answered with the trimmed output followed by the error text. *)
Theorem ocCliExec_runs_oc_once
    (ctx : Context) (ctr : mcp.CallToolRequest) (c : kubernetes.Cluster) :
  match Bind ctr "command" with
  | (_, Some err) =>
      events (ocCliExec ctx ctr) c = [] /\
      result (ocCliExec ctx ctr) c = (mcp.ErrorToolResult (Error err), None)
  | (args, None) =>
      events (ocCliExec ctx ctr) c = [kubernetes.OcCombinedOutput ctx args] /\
      events (kubernetes.ExecuteOcCommand TrimSpace ctx args) c
        = [kubernetes.OcCombinedOutput ctx args] /\
      result (kubernetes.ExecuteOcCommand TrimSpace ctx args) c
        = (TrimSpace (fst (kubernetes.ocCombinedOutput c ctx args)),
           snd (kubernetes.ocCombinedOutput c ctx args)) /\
      result (ocCliExec ctx ctr) c
        = match kubernetes.ocCombinedOutput c ctx args with
          | (output, Some err) =>
              (mcp.ErrorToolResult (TrimSpace output +:+ LF +:+ Error err), None)
          | (output, None) => (mcp.TextToolResult (TrimSpace output), None)
          end
  end.
Proof.
  unfold events, result, mcp.ocCliExec, kubernetes.ExecuteOcCommand.
  destruct (Bind ctr "command") as [args [err|]]; cbn; [split; reflexivity|].
  destruct (kubernetes.ocCombinedOutput c ctx args) as [output [err|]]; cbn;
    repeat split; reflexivity.
Qed.

(** X11.  Each of the four OpenShift handlers makes exactly one call to the
    cluster, whatever the request and whatever the cluster answers: a get
    of the ClusterVersion named "version", through the handle derived from
    the context of the call and with that context. *)
Theorem openShift_handlers_get_once
    (ctx : Context) (ctr : mcp.CallToolRequest) (c : kubernetes.Cluster) :
  Forall (fun handler : mcp.ToolHandlerFunc =>
            events (handler ctx ctr) c
            = [spec.getClusterVersion (kubernetes.Derived ctx) ctx])
         [ mcp.openShiftClusterVersion; openShiftAvailableUpdates;
           openShiftCapabilities; openShiftUpdateHistory ].
Proof.
  assert (Hend : forall (A : Type) (m : kubernetes.K A)
                   (f : A -> kubernetes.K (mcp.CallToolResult * option error)),
             events m c = [spec.getClusterVersion (kubernetes.Derived ctx) ctx] ->
             (forall a, events (f a) c = []) ->
             events (bind m f) c = [spec.getClusterVersion (kubernetes.Derived ctx) ctx]).
  { intros A m f Hm Hf. rewrite events_bind, Hm, Hf. reflexivity. }
  repeat (apply List.Forall_cons; [|]); [ | | | | apply List.Forall_nil].
  - apply Hend.
    + unfold events, updates.GetClusterVersion, kubernetes.ResourcesGet_. cbn.
      destruct (kubernetes.resourcesGet c _ _ _ _ _) as [obj|e]; cbn; [|reflexivity].
      destruct (assertMap (index (Object obj) "status")) as [status|]; cbn; [|reflexivity].
      destruct (andThen (assertMap (index status "desired")) _); cbn; [reflexivity|].
      destruct (andThen (assertSlice (index status "history")) _); reflexivity.
    + intros [version [err|]]; reflexivity.
  - apply Hend.
    + unfold events, updates.GetAvailableUpdates, kubernetes.ResourcesGet_. cbn.
      destruct (kubernetes.resourcesGet c _ _ _ _ _) as [obj|e]; cbn; [|reflexivity].
      destruct (assertMap (index (Object obj) "status")) as [status|]; cbn; [|reflexivity].
      destruct (assertSlice (index status "availableUpdates")); reflexivity.
    + intros [available [err|]]; [reflexivity|]. unfold events. cbn.
      destruct (MarshalYaml _ available) as [yamlOut [err|]]; reflexivity.
  - apply Hend.
    + unfold events, updates.GetCapabilities, kubernetes.ResourcesGet_. cbn.
      destruct (kubernetes.resourcesGet c _ _ _ _ _) as [obj|e]; cbn; [|reflexivity].
      destruct (assertMap (index (Object obj) "status")) as [status|]; cbn; [|reflexivity].
      destruct (assertMap (index status "capabilities")); reflexivity.
    + intros [caps [err|]]; [reflexivity|]. unfold events. cbn.
      destruct (index (mcp.GetArguments ctr) "type"); cbn;
        repeat match goal with
               | |- context [String.eqb ?a ?b] => destruct (String.eqb a b); cbn
               | |- context [MarshalYaml ?A ?x] =>
                   destruct (MarshalYaml A x) as [? [?|]]; cbn
               end; reflexivity.
  - apply Hend.
    + unfold events, updates.GetUpdateHistory, kubernetes.ResourcesGet_. cbn.
      destruct (kubernetes.resourcesGet c _ _ _ _ _) as [obj|e]; cbn; [|reflexivity].
      destruct (assertMap (index (Object obj) "status")) as [status|]; cbn; [|reflexivity].
      destruct (assertSlice (index status "history")); reflexivity.
    + intros [history [err|]]; [reflexivity|]. unfold events. cbn.
      destruct (MarshalYaml _ history) as [yamlOut [err|]]; reflexivity.
Qed.

(** X12.  After the capabilities were read, [openShiftCapabilities] answers
    with the enabled capabilities when the argument "type" is the string
    "enabled", with the known ones when it is the string "known", and with
    both in every other case: the argument absent, nil, not a string, or
    any other string. *)
Theorem openShiftCapabilities_selects
    (ctx : Context) (ctr : mcp.CallToolRequest) (c : kubernetes.Cluster)
    (caps : updates.Capabilities) :
  result (updates.GetCapabilities ctx (kubernetes.Derived ctx)) c = (caps, None) ->
  (index (mcp.GetArguments ctr) "type" = VString "enabled" ->
   result (openShiftCapabilities ctx ctr) c
   = spec.renderedCapabilities (MarshalYaml _ (updates.Enabled caps))) /\
  (index (mcp.GetArguments ctr) "type" = VString "known" ->
   result (openShiftCapabilities ctx ctr) c
   = spec.renderedCapabilities (MarshalYaml _ (updates.Known caps))) /\
  (index (mcp.GetArguments ctr) "type" <> VString "enabled" ->
   index (mcp.GetArguments ctr) "type" <> VString "known" ->
   result (openShiftCapabilities ctx ctr) c
   = spec.renderedCapabilities (MarshalYaml _ caps)).
Proof.
  intros Hcaps.
  assert (Hrun : result (openShiftCapabilities ctx ctr) c
                 = spec.renderedCapabilities
                     (let capTypeArg :=
                        match index (mcp.GetArguments ctr) "type" with
                        | VNil => ""
                        | v => default "" (assertString v)
                        end in
                      if String.eqb capTypeArg "enabled"
                      then MarshalYaml _ (updates.Enabled caps)
                      else if String.eqb capTypeArg "known"
                           then MarshalYaml _ (updates.Known caps)
                           else MarshalYaml _ caps)).
  { unfold mcp.openShiftCapabilities.
    etransitivity; [apply result_bind|]. rewrite Hcaps.
    unfold spec.renderedCapabilities, result. cbn zeta.
    match goal with
    | |- context [let '(_, _) := ?p in _] => destruct p as [yamlOut [err|]]
    end; reflexivity. }
  rewrite Hrun. clear Hrun. repeat split.
  - intros ->. reflexivity.
  - intros ->. reflexivity.
  - intros Hne Hnk.
    destruct (index (mcp.GetArguments ctr) "type") as [| | |s| |]; cbn; try reflexivity.
    destruct (String.eqb s "enabled") eqn:Ee.
    { apply String.eqb_eq in Ee. subst s. contradiction. }
    destruct (String.eqb s "known") eqn:Ek.
    { apply String.eqb_eq in Ek. subst s. contradiction. }
    reflexivity.
Qed.
End MoreHandlerProperties.

Lemma openShiftCapabilities_selects_witness :
  result (mcp.openShiftCapabilities fixtures.MarshalYaml Background
            (fixtures.callWithType (VString "enabled")))
         (fixtures.cluster (inl fixtures.clusterCapabilities) None)
  = spec.renderedCapabilities (fixtures.MarshalYaml _ ["Console"; "Ingress"]) /\
  result (mcp.openShiftCapabilities fixtures.MarshalYaml Background
            (fixtures.callWithType (VNumber 1)))
         (fixtures.cluster (inl fixtures.clusterCapabilities) None)
  = spec.renderedCapabilities
      (fixtures.MarshalYaml _
         {| updates.Enabled := ["Console"; "Ingress"];
            updates.Known := ["Console"; "Ingress"; "Storage"] |}).
Proof.
  split.
  - assert (Hcaps : result (updates.GetCapabilities Background (kubernetes.Derived Background))
                           (fixtures.cluster (inl fixtures.clusterCapabilities) None)
                    = ({| updates.Enabled := ["Console"; "Ingress"];
                          updates.Known := ["Console"; "Ingress"; "Storage"] |}, None))
      by (vm_compute; reflexivity).
    destruct (openShiftCapabilities_selects fixtures.MarshalYaml Background
                (fixtures.callWithType (VString "enabled")) _ _ Hcaps) as (Henabled & _ & _).
    apply Henabled. vm_compute. reflexivity.
  - assert (Hcaps : result (updates.GetCapabilities Background (kubernetes.Derived Background))
                           (fixtures.cluster (inl fixtures.clusterCapabilities) None)
                    = ({| updates.Enabled := ["Console"; "Ingress"];
                          updates.Known := ["Console"; "Ingress"; "Storage"] |}, None))
      by (vm_compute; reflexivity).
    destruct (openShiftCapabilities_selects fixtures.MarshalYaml Background
                (fixtures.callWithType (VNumber 1)) _ _ Hcaps) as (_ & _ & Hother).
    apply Hother; vm_compute; discriminate.
Defined.

(** ** [cmd]: flags, completion and start-up *)

(** [loadFlags] succeeds exactly on the commands that have its eight flags,
    and then gives the merged configuration. *)
Lemma loadFlags_merged (m : cmd.MCPServerOptions) (c : cmd.Command) :
  Forall (fun name => is_Some (cmd.Flags c !! name)) spec.loadedFlags ->
  cmd.loadFlags m c
  = Some (cmd.withStaticConfig m (spec.merged m (cmd.StaticConfig m) (spec.flagSet c))).
Proof.
  intros H. unfold spec.loadedFlags in H.
  repeat match type of H with
         | Forall _ (_ :: _) =>
             let Hf := fresh "Hf" in let f := fresh "f" in
             apply List.Forall_cons_iff in H as [[[f] Hf] H]
         end.
  unfold cmd.loadFlags, cmd.changed, spec.merged, spec.flagSet.
  rewrite Hf, Hf0, Hf1, Hf2, Hf3, Hf4, Hf5, Hf6. cbn.
  destruct (cmd.StaticConfig m) as [ll sp hp sb kc lo ro dd en dis]. cbn.
  destruct f, f0, f1, f2, f3, f5, f6; cbn;
    destruct f4; cbn; try destruct (String.eqb lo ""); reflexivity.
Qed.

Lemma loadFlags_registered (m m' : cmd.MCPServerOptions) (c : cmd.Command) :
  cmd.loadFlags m c = Some m' ->
  Forall (fun name => is_Some (cmd.Flags c !! name)) spec.loadedFlags.
Proof.
  unfold cmd.loadFlags, cmd.changed, spec.loadedFlags. intros H.
  destruct (cmd.Flags c !! "log-level") eqn:H1; [cbn in H | discriminate H].
  destruct (cmd.Flags c !! "sse-port") eqn:H2; [cbn in H | discriminate H].
  destruct (cmd.Flags c !! "http-port") eqn:H3; [cbn in H | discriminate H].
  destruct (cmd.Flags c !! "sse-base-url") eqn:H4; [cbn in H | discriminate H].
  destruct (cmd.Flags c !! "kubeconfig") eqn:H5; [cbn in H | discriminate H].
  destruct (cmd.Flags c !! "list-output") eqn:H6; [cbn in H | discriminate H].
  destruct (cmd.Flags c !! "read-only") eqn:H7; [cbn in H | discriminate H].
  destruct (cmd.Flags c !! "disable-destructive") eqn:H8; [cbn in H | discriminate H].
  repeat (apply List.Forall_cons; [eexists; eassumption|]). apply List.Forall_nil.
Qed.

(** X13.  [loadFlags] returns (it does not panic) exactly when the eight
    flags it reads are registered on the command; the other flags of the
    command do not matter. *)
Theorem loadFlags_returns_iff (m : cmd.MCPServerOptions) (c : cmd.Command) :
  is_Some (cmd.loadFlags m c) <->
  Forall (fun name => is_Some (cmd.Flags c !! name)) spec.loadedFlags.
Proof.
  split.
  - intros [m' H]. exact (loadFlags_registered m m' c H).
  - intros H. rewrite (loadFlags_merged m c H). eexists. reflexivity.
Qed.

Lemma withStaticConfig_id (m : cmd.MCPServerOptions) :
  cmd.withStaticConfig m (cmd.StaticConfig m) = m.
Proof. destruct m. reflexivity. Qed.

(** X14.  [loadFlags] is idempotent: loading the flags of the same command
    a second time changes nothing. *)
Theorem loadFlags_idempotent (m m' : cmd.MCPServerOptions) (c : cmd.Command) :
  cmd.loadFlags m c = Some m' -> cmd.loadFlags m' c = Some m'.
Proof.
  intros H. pose proof (loadFlags_registered m m' c H) as Hreg.
  rewrite (loadFlags_merged m c Hreg) in H. injection H as <-.
  rewrite (loadFlags_merged _ c Hreg). f_equal.
  unfold cmd.withStaticConfig, spec.merged. cbn. f_equal. f_equal.
  all: try (destruct (spec.flagSet c _); reflexivity).
  destruct (spec.flagSet c "list-output"); [reflexivity|].
  destruct (String.eqb (config.ListOutput (cmd.StaticConfig m)) "") eqn:E1.
  - destruct (String.eqb (cmd.ListOutput m) ""); reflexivity.
  - rewrite E1. reflexivity.
Qed.

Lemma loadFlags_idempotent_witness :
  cmd.loadFlags (cmd.withStaticConfig (fixtures.options "full" "yaml" false) config.zero)
                (fixtures.command ["sse-port"])
  = Some (cmd.withStaticConfig (fixtures.options "full" "yaml" false)
            (cmd.setListOutput "yaml" config.zero)) /\
  cmd.loadFlags (cmd.withStaticConfig (fixtures.options "full" "yaml" false)
                   (cmd.setListOutput "yaml" config.zero))
                (fixtures.command ["sse-port"])
  = Some (cmd.withStaticConfig (fixtures.options "full" "yaml" false)
            (cmd.setListOutput "yaml" config.zero)).
Proof.
  assert (H : cmd.loadFlags
                (cmd.withStaticConfig (fixtures.options "full" "yaml" false) config.zero)
                (fixtures.command ["sse-port"])
              = Some (cmd.withStaticConfig (fixtures.options "full" "yaml" false)
                        (cmd.setListOutput "yaml" config.zero)))
    by (vm_compute; reflexivity).
  split; [exact H|].
  exact (loadFlags_idempotent _ _ _ H).
Defined.

(** X15.  When no flag that [loadFlags] reads was set on the command line
    and the configuration already names an output format, [loadFlags]
    leaves the options as they are. *)
Theorem loadFlags_without_flags (m : cmd.MCPServerOptions) (c : cmd.Command) :
  Forall (fun name => exists flag, cmd.Flags c !! name = Some flag /\
                                   cmd.Changed flag = false) spec.loadedFlags ->
  config.ListOutput (cmd.StaticConfig m) <> "" ->
  cmd.loadFlags m c = Some m.
Proof.
  intros Hflags Hout.
  assert (Hreg : Forall (fun name => is_Some (cmd.Flags c !! name)) spec.loadedFlags).
  { eapply List.Forall_impl; [|exact Hflags]. intros name (flag & Hf & _). eauto. }
  assert (Hset : forall name, In name spec.loadedFlags -> spec.flagSet c name = false).
  { intros name Hin. rewrite List.Forall_forall in Hflags.
    destruct (Hflags name Hin) as (flag & Hf & Hc). unfold spec.flagSet. now rewrite Hf. }
  rewrite (loadFlags_merged m c Hreg). f_equal.
  transitivity (cmd.withStaticConfig m (cmd.StaticConfig m));
    [|apply withStaticConfig_id].
  f_equal. apply String.eqb_neq in Hout.
  unfold spec.merged. rewrite !Hset, Hout by (cbn; tauto).
  destruct (cmd.StaticConfig m). reflexivity.
Qed.

Lemma loadFlags_without_flags_witness :
  cmd.loadFlags (fixtures.options "full" "yaml" false) (fixtures.command [])
  = Some (fixtures.options "full" "yaml" false).
Proof.
  apply (loadFlags_without_flags (fixtures.options "full" "yaml" false)
           (fixtures.command [])).
  - repeat (apply List.Forall_cons;
            [eexists; split; vm_compute; reflexivity|]).
    apply List.Forall_nil.
  - vm_compute. discriminate.
Defined.

(** X16.  After [loadFlags] the configuration names an output format
    whenever the option does: with the default of the option ("table") the
    output format that reaches [Run] is never empty. *)
Theorem loadFlags_output_not_empty (m m' : cmd.MCPServerOptions) (c : cmd.Command) :
  cmd.loadFlags m c = Some m' ->
  cmd.ListOutput m <> "" ->
  config.ListOutput (cmd.StaticConfig m') <> "".
Proof.
  intros H Hopt. pose proof (loadFlags_registered m m' c H) as Hreg.
  rewrite (loadFlags_merged m c Hreg) in H. injection H as <-. cbn.
  destruct (spec.flagSet c "list-output"); [exact Hopt|].
  destruct (String.eqb (config.ListOutput (cmd.StaticConfig m)) "") eqn:E;
    [exact Hopt | now apply String.eqb_neq].
Qed.

Lemma loadFlags_output_not_empty_witness :
  cmd.loadFlags cmd.NewMCPServerOptions (fixtures.command [])
  = Some (cmd.withStaticConfig cmd.NewMCPServerOptions
            (cmd.setListOutput "table" config.zero)) /\
  config.ListOutput
    (cmd.StaticConfig (cmd.withStaticConfig cmd.NewMCPServerOptions
                         (cmd.setListOutput "table" config.zero))) <> "".
Proof.
  assert (H : cmd.loadFlags cmd.NewMCPServerOptions (fixtures.command [])
              = Some (cmd.withStaticConfig cmd.NewMCPServerOptions
                        (cmd.setListOutput "table" config.zero)))
    by (vm_compute; reflexivity).
  split; [exact H|].
  apply (loadFlags_output_not_empty cmd.NewMCPServerOptions _ (fixtures.command []) H).
  vm_compute. discriminate.
Defined.

Section CompleteProperties.
Variable ReadConfig : string -> config.StaticConfig + error.

(** X17.  When a configuration file is named and cannot be read,
    [Complete] returns the error of the reader as it is, leaves the options
    untouched, and neither reads a flag (so it cannot panic on a command
    without flags) nor sets up logging. *)
Theorem Complete_read_error (m : cmd.MCPServerOptions) (c : cmd.Command) (err : error) :
  cmd.ConfigPath m <> "" ->
  ReadConfig (cmd.ConfigPath m) = inr err ->
  cmd.Complete ReadConfig m c = Some (m, None, Some err).
Proof.
  intros Hpath Hread. unfold cmd.Complete.
  apply String.eqb_neq in Hpath. rewrite Hpath, Hread. reflexivity.
Qed.

(** X18.  When [Complete] returns without an error, the options are the
    ones it was given with a new configuration: the configuration of the
    file (of the options when no file is named) with the options of the
    flags that were set written over it.  The tool allow-list and deny-list
    are those of the file, and logging is set up with a verbosity exactly
    when the resulting log level is not negative. *)
Theorem Complete_merges (m m' : cmd.MCPServerOptions) (c : cmd.Command)
    (logging : option cmd.Logging) :
  cmd.Complete ReadConfig m c = Some (m', logging, None) ->
  exists base : config.StaticConfig,
    spec.configured ReadConfig m = Some base /\
    m' = cmd.withStaticConfig m (spec.merged m base (spec.flagSet c)) /\
    config.EnabledTools (cmd.StaticConfig m') = config.EnabledTools base /\
    config.DisabledTools (cmd.StaticConfig m') = config.DisabledTools base /\
    logging = Some (cmd.initializeLogging m') /\
    (forall level : Z,
       In (cmd.Verbosity level) (cmd.loggerOptions (cmd.initializeLogging m')) <->
       level = config.LogLevel (cmd.StaticConfig m') /\ (0 <= level)%Z).
Proof.
  unfold cmd.Complete, spec.configured. intros H.
  assert (Hlog : forall level : Z,
            In (cmd.Verbosity level) (cmd.loggerOptions (cmd.initializeLogging m')) <->
            level = config.LogLevel (cmd.StaticConfig m') /\ (0 <= level)%Z).
  { intros level. unfold cmd.initializeLogging.
    destruct (0 <=? config.LogLevel (cmd.StaticConfig m'))%Z eqn:E; cbn.
    - apply Z.leb_le in E. split.
      + intros [Hd|[[= <-]|[]]]; [discriminate | split; [reflexivity | exact E]].
      + intros [-> _]. right. left. reflexivity.
    - apply Z.leb_gt in E. split.
      + intros [Hd|[]]. discriminate.
      + intros [-> Hle]. lia. }
  destruct (String.eqb (cmd.ConfigPath m) "") eqn:Hpath; cbn in H.
  - destruct (cmd.loadFlags m c) as [loaded|] eqn:Hload; [|discriminate].
    injection H as <- <-. pose proof (loadFlags_registered _ _ _ Hload) as Hreg.
    rewrite (loadFlags_merged m c Hreg) in Hload. injection Hload as <-.
    exists (cmd.StaticConfig m). repeat (split; [reflexivity|]). exact Hlog.
  - destruct (ReadConfig (cmd.ConfigPath m)) as [cnf|err]; cbn in H; [|discriminate].
    destruct (cmd.loadFlags (cmd.withStaticConfig m cnf) c) as [loaded|] eqn:Hload;
      [|discriminate].
    injection H as <- <-. pose proof (loadFlags_registered _ _ _ Hload) as Hreg.
    rewrite (loadFlags_merged _ c Hreg) in Hload. injection Hload as <-.
    exists cnf. repeat (split; [reflexivity|]). exact Hlog.
Qed.
End CompleteProperties.

Lemma Complete_read_error_witness :
  cmd.Complete fixtures.ReadConfig (fixtures.optionsWithConfig "/etc/kmcp.toml")
               {| cmd.Flags := ∅ |}
  = Some (fixtures.optionsWithConfig "/etc/kmcp.toml", None,
          Some (errorString "open /etc/kmcp.toml: no such file or directory")).
Proof.
  apply (Complete_read_error fixtures.ReadConfig
           (fixtures.optionsWithConfig "/etc/kmcp.toml") {| cmd.Flags := ∅ |}).
  - vm_compute. discriminate.
  - reflexivity.
Defined.

Lemma Complete_merges_witness :
  exists base : config.StaticConfig,
    spec.configured fixtures.ReadConfig (fixtures.optionsWithConfig "") = Some base /\
    config.ListOutput base = "" /\
    config.ListOutput
      (spec.merged (fixtures.optionsWithConfig "") base
                   (spec.flagSet (fixtures.command ["read-only"]))) = "table".
Proof.
  destruct (Complete_merges fixtures.ReadConfig (fixtures.optionsWithConfig "")
              (cmd.withStaticConfig (fixtures.optionsWithConfig "")
                 (cmd.setListOutput "table" config.zero))
              (fixtures.command ["read-only"])
              (Some {| cmd.loggerOptions := [cmd.Output; cmd.Verbosity 0];
                       cmd.klogArgs := ["--v"; "0"] |}))
    as (base & Hbase & _).
  { vm_compute. reflexivity. }
  exists base. split; [exact Hbase|].
  vm_compute in Hbase. injection Hbase as <-. split; vm_compute; reflexivity.
Defined.

Section MoreRunProperties.
Variable ProfileFromString : string -> option mcp.Profile.
Variable ProfileNames : list string.
Variable FromString : string -> option output.Output.
Variable Names : list string.
Variable version_Version : string.

Local Abbreviation Run :=
  (cmd.Run ProfileFromString ProfileNames FromString Names version_Version).

(** Running [Run]: case analysis on every answer it looks at. *)
Ltac run_cases :=
  unfold result, events, cmd.Run, cmd.runSSE, cmd.runHTTP, cmd.runStdio,
    spec.afterStdio, spec.address;
  repeat match goal with
         | |- context [match ProfileFromString ?x with _ => _ end] =>
             destruct (ProfileFromString x) eqn:?; cbn
         | |- context [match FromString ?x with _ => _ end] =>
             destruct (FromString x) eqn:?; cbn
         | |- context [if cmd.Version ?m then _ else _] =>
             destruct (cmd.Version m) eqn:?; cbn
         | |- context [cmd.newServer ?w ?cfg] => destruct (cmd.newServer w cfg) eqn:?; cbn
         | |- context [(0 <? ?p)%Z] => destruct (0 <? p)%Z eqn:?; cbn
         | |- context [cmd.sseStart ?w ?a] => destruct (cmd.sseStart w a) eqn:?; cbn
         | |- context [cmd.httpStart ?w ?a] => destruct (cmd.httpStart w a) eqn:?; cbn
         | |- context [cmd.serveStdio ?w] => destruct (cmd.serveStdio w) eqn:?; cbn
         | |- context [isCanceled ?e] => destruct (isCanceled e) eqn:?; cbn
         end.

(** Membership in a list of events that is written out. *)
Ltac in_cases H :=
  cbn in H; repeat (destruct H as [H|H]; [try discriminate H|]); try contradiction.

(** X19.  With [--version], [Run] only writes: it constructs no server and
    starts no transport.  It returns no error exactly when the profile and
    the output format are valid, and then it has printed the version. *)
Theorem Run_with_version (m : cmd.MCPServerOptions) (w : cmd.World) :
  cmd.Version m = true ->
  Forall (fun ev => spec.quiet ev = true) (events (Run m) w) /\
  (result (Run m) w = None <->
   is_Some (ProfileFromString (cmd.Profile m)) /\
   is_Some (FromString (config.ListOutput (cmd.StaticConfig m)))) /\
  (result (Run m) w = None ->
   In (cmd.Fprintf (version_Version +:+ LF)) (events (Run m) w)).
Proof.
  intros Hv. run_cases; try congruence.
  - split; [repeat constructor|]. split; [|intros _; cbn; tauto].
    split; [intros _; split; eexists; reflexivity | reflexivity].
  - split; [constructor|]. split; [|discriminate].
    split; [discriminate | intros [_ [? [=]]]].
  - split; [constructor|]. split; [|discriminate].
    split; [discriminate | intros [[? [=]] _]].
Qed.

(** X20.  The server is constructed from the options: with their
    configuration, the profile and the output format their names stand for,
    and never with [--version].  A server that was constructed is closed
    exactly once, as the last thing [Run] does; when the construction fails
    [Run] does nothing more and returns the failure wrapped. *)
Theorem Run_server (m : cmd.MCPServerOptions) (w : cmd.World) (cfg : mcp.Configuration) :
  In (cmd.NewServer cfg) (events (Run m) w) ->
  mcp.StaticConfig cfg = cmd.StaticConfig m /\
  ProfileFromString (cmd.Profile m) = Some (mcp.Profile_ cfg) /\
  FromString (config.ListOutput (cmd.StaticConfig m)) = Some (mcp.ListOutput cfg) /\
  cmd.Version m = false /\
  match cmd.newServer w cfg with
  | None =>
      exists before, events (Run m) w = before ++ [cmd.Close] /\ ~ In cmd.Close before
  | Some cause =>
      (exists before, events (Run m) w = before ++ [cmd.NewServer cfg] /\
                      Forall (fun ev => spec.quiet ev = true) before) /\
      result (Run m) w = Some (Errorf_w "Failed to initialize MCP server: " cause LF)
  end.
Proof.
  run_cases; intros Hin; in_cases Hin; injection Hin as <-; cbn;
    match goal with
    | H1 : cmd.newServer w ?c = _, H2 : cmd.newServer w ?c = _ |- _ =>
        rewrite H1 in H2; try discriminate H2; try (injection H2 as <-)
    end;
    repeat (split; [reflexivity|]);
    try (split; [|reflexivity]);
    match goal with
    | |- exists before, ?l = before ++ _ /\ _ => exists (removelast l)
    end;
    (split; [reflexivity|]); cbn;
    try (repeat constructor); intuition discriminate.
Qed.

(** The closing steps of the proofs about the events of [Run]. *)
Ltac run_done :=
  repeat match goal with
         | H : (0 <? _)%Z = true |- _ => apply Z.ltb_lt in H
         | H : (0 <? _)%Z = false |- _ => apply Z.ltb_ge in H
         | H : ?x = _, H' : ?x = _ |- _ => rewrite H in H'
         end;
  repeat match goal with
         | |- _ /\ _ => split
         | |- exists before, ?l = before ++ [_; _] =>
             exists (removelast (removelast l)); reflexivity
         | |- forall _, _ => intro
         | |- ~ _ => intro
         | H : In _ _ |- _ => in_cases H
         end;
  subst; cbn in *; try reflexivity; try assumption; try lia; try congruence;
  try (intuition (congruence || lia)).

(** X21.  The SSE server is started only for a port greater than zero, on
    the address of that port.  It is set up with the base URL of the
    configuration, then the start is logged, then it is started, in this
    order and once: no transport is touched before the set-up, and nothing
    sets up or starts an SSE server afterwards.  Once it was started it is
    shut down, and the server closed, as the last two things [Run] does.
    When the start fails [Run] returns the failure wrapped and starts
    neither the HTTP server nor the stdio server. *)
Theorem Run_sse (m : cmd.MCPServerOptions) (w : cmd.World) (addr : string) :
  In (cmd.SseStart addr) (events (Run m) w) ->
  addr = spec.address (config.SSEPort (cmd.StaticConfig m)) /\
  (0 < config.SSEPort (cmd.StaticConfig m))%Z /\
  In (cmd.ServeSse (config.SSEBaseURL (cmd.StaticConfig m))) (events (Run m) w) /\
  (exists before, events (Run m) w = before ++ [cmd.SseShutdown; cmd.Close]) /\
  (forall cause : error,
     cmd.sseStart w addr = Some cause ->
     result (Run m) w = Some (Errorf_w "failed to start SSE server: " cause LF) /\
     ~ In cmd.ServeHTTP (events (Run m) w) /\
     ~ In cmd.ServeStdio (events (Run m) w)) /\
  (exists before after : list cmd.Event,
     events (Run m) w
     = before
       ++ [ cmd.ServeSse (config.SSEBaseURL (cmd.StaticConfig m));
            spec.starting "SSE" (config.SSEPort (cmd.StaticConfig m)) "/sse";
            cmd.SseStart addr ]
       ++ after /\
     Forall (fun ev => spec.transport ev = false) before /\
     (forall url, ~ In (cmd.ServeSse url) after) /\
     (forall a, ~ In (cmd.SseStart a) after)).
Proof.
  run_cases; intros Hin; in_cases Hin; injection Hin as <-;
    (split; [run_done|]); (split; [run_done|]); (split; [run_done|]);
    (split; [run_done|]); (split; [run_done|]);
    match goal with
    | |- exists before after, ?l = _ /\ _ => exists (firstn 7 l), (skipn 10 l)
    end;
    (split; [reflexivity|]); cbn;
    (split; [repeat constructor|]);
    split; intros ? H; in_cases H.
Qed.

(** X22.  The HTTP server is started only for a port greater than zero, on
    the address of that port, and only after the start of a configured SSE
    server returned without an error.  It is set up, then the start is
    logged, then it is started, in this order and once: before the set-up
    no HTTP server was set up or started and a configured SSE server was
    started, and nothing sets up or starts an HTTP server afterwards.  When
    the start fails [Run] returns the failure wrapped and does not start
    the stdio server. *)
Theorem Run_http (m : cmd.MCPServerOptions) (w : cmd.World) (addr : string) :
  In (cmd.HttpStart addr) (events (Run m) w) ->
  addr = spec.address (config.HTTPPort (cmd.StaticConfig m)) /\
  (0 < config.HTTPPort (cmd.StaticConfig m))%Z /\
  In cmd.ServeHTTP (events (Run m) w) /\
  ((0 < config.SSEPort (cmd.StaticConfig m))%Z ->
   cmd.sseStart w (spec.address (config.SSEPort (cmd.StaticConfig m))) = None) /\
  (forall cause : error,
     cmd.httpStart w addr = Some cause ->
     result (Run m) w
     = Some (Errorf_w "failed to start streaming HTTP server: " cause LF) /\
     ~ In cmd.ServeStdio (events (Run m) w)) /\
  (exists before after : list cmd.Event,
     events (Run m) w
     = before
       ++ [ cmd.ServeHTTP;
            spec.starting "Streaming HTTP" (config.HTTPPort (cmd.StaticConfig m)) "/mcp";
            cmd.HttpStart addr ]
       ++ after /\
     (~ In cmd.ServeHTTP before /\ forall a, ~ In (cmd.HttpStart a) before) /\
     ((0 < config.SSEPort (cmd.StaticConfig m))%Z ->
      In (cmd.SseStart (spec.address (config.SSEPort (cmd.StaticConfig m)))) before) /\
     (~ In cmd.ServeHTTP after /\ forall a, ~ In (cmd.HttpStart a) after)).
Proof.
  run_cases; intros Hin; in_cases Hin; injection Hin as <-;
    (split; [run_done|]); (split; [run_done|]); (split; [run_done|]);
    (split; [run_done|]); (split; [run_done|]);
    match goal with
    | |- exists before after, ?l = _ /\ _ =>
        first [ exists (firstn 7 l), (skipn 10 l); split; [reflexivity|]
              | exists (firstn 10 l), (skipn 13 l); split; [reflexivity|] ]
    end;
    cbn;
    repeat match goal with
           | H : (0 <? _)%Z = true |- _ => apply Z.ltb_lt in H
           | H : (0 <? _)%Z = false |- _ => apply Z.ltb_ge in H
           end;
    (split; [split; [intros H; in_cases H | intros ? H; in_cases H]|]);
    (split; [intros ?; first [lia | tauto]|]);
    (split; [intros H; in_cases H | intros ? H; in_cases H]).
Qed.

(** X23.  The stdio server is served only after the start of every
    configured network server returned without an error, and then it
    decides what [Run] returns: its error, except that a cancellation (also
    a wrapped one) and a normal end both give no error. *)
Theorem Run_stdio_decides (m : cmd.MCPServerOptions) (w : cmd.World) :
  In cmd.ServeStdio (events (Run m) w) ->
  ((0 < config.SSEPort (cmd.StaticConfig m))%Z ->
   cmd.sseStart w (spec.address (config.SSEPort (cmd.StaticConfig m))) = None) /\
  ((0 < config.HTTPPort (cmd.StaticConfig m))%Z ->
   cmd.httpStart w (spec.address (config.HTTPPort (cmd.StaticConfig m))) = None) /\
  result (Run m) w = spec.afterStdio (cmd.serveStdio w).
Proof.
  run_cases; intros Hin; in_cases Hin; run_done.
Qed.

(** X24.  [Run] returns no error only after it printed the version or after
    the stdio server ended, normally or by cancellation. *)
Theorem Run_returns_nil (m : cmd.MCPServerOptions) (w : cmd.World) :
  result (Run m) w = None ->
  (cmd.Version m = true /\ In (cmd.Fprintf (version_Version +:+ LF)) (events (Run m) w)) \/
  (In cmd.ServeStdio (events (Run m) w) /\ spec.afterStdio (cmd.serveStdio w) = None).
Proof.
  run_cases; intros Hres; try discriminate Hres;
    first [ left; split; [reflexivity | cbn; tauto]
          | right; split; [cbn; tauto | reflexivity] ].
Qed.
End MoreRunProperties.

Lemma Run_with_version_witness :
  In (cmd.Fprintf ("0.0.0" +:+ LF))
     (events (cmd.Run fixtures.ProfileFromString fixtures.ProfileNames
                      fixtures.FromString fixtures.Names "0.0.0"
                      (fixtures.options "full" "yaml" true))
             fixtures.world).
Proof.
  destruct (Run_with_version fixtures.ProfileFromString fixtures.ProfileNames
              fixtures.FromString fixtures.Names "0.0.0"
              (fixtures.options "full" "yaml" true) fixtures.world eq_refl)
    as (_ & _ & Hprinted).
  apply Hprinted. reflexivity.
Defined.

Lemma Run_server_witness :
  exists before,
    events (cmd.Run fixtures.ProfileFromString fixtures.ProfileNames
                    fixtures.FromString fixtures.Names "0.0.0"
                    (fixtures.options "full" "table" false))
           fixtures.world
    = before ++ [cmd.Close] /\ ~ In cmd.Close before.
Proof.
  destruct (Run_server fixtures.ProfileFromString fixtures.ProfileNames
              fixtures.FromString fixtures.Names "0.0.0"
              (fixtures.options "full" "table" false) fixtures.world
              {| mcp.Profile_ := {| mcp.GetName := "full" |};
                 mcp.ListOutput := {| output.GetName := "table" |};
                 mcp.StaticConfig := cmd.setListOutput "table" config.zero |})
    as (_ & _ & _ & _ & Hclosed).
  { vm_compute. tauto. }
  exact Hclosed.
Defined.

Lemma Run_sse_witness :
  (0 < config.SSEPort (cmd.StaticConfig (fixtures.optionsWithPorts 8080 8081)))%Z /\
  exists before,
    events (cmd.Run fixtures.ProfileFromString fixtures.ProfileNames
                    fixtures.FromString fixtures.Names "0.0.0"
                    (fixtures.optionsWithPorts 8080 8081))
           fixtures.world
    = before ++ [cmd.SseShutdown; cmd.Close].
Proof.
  destruct (Run_sse fixtures.ProfileFromString fixtures.ProfileNames
              fixtures.FromString fixtures.Names "0.0.0"
              (fixtures.optionsWithPorts 8080 8081) fixtures.world ":8080")
    as (_ & Hport & _ & Hend & _ & _).
  { vm_compute. tauto. }
  split; [exact Hport | exact Hend].
Defined.

Lemma Run_http_witness :
  (0 < config.HTTPPort (cmd.StaticConfig (fixtures.optionsWithPorts 8080 8081)))%Z /\
  In cmd.ServeHTTP
     (events (cmd.Run fixtures.ProfileFromString fixtures.ProfileNames
                      fixtures.FromString fixtures.Names "0.0.0"
                      (fixtures.optionsWithPorts 8080 8081))
             fixtures.world).
Proof.
  destruct (Run_http fixtures.ProfileFromString fixtures.ProfileNames
              fixtures.FromString fixtures.Names "0.0.0"
              (fixtures.optionsWithPorts 8080 8081) fixtures.world ":8081")
    as (_ & Hport & Hserve & _).
  { vm_compute. tauto. }
  split; [exact Hport | exact Hserve].
Defined.

Lemma Run_stdio_decides_witness :
  result (cmd.Run fixtures.ProfileFromString fixtures.ProfileNames
                  fixtures.FromString fixtures.Names "0.0.0"
                  (fixtures.optionsWithPorts 8080 0))
         {| cmd.newServer := fun _ => None; cmd.sseStart := fun _ => None;
            cmd.httpStart := fun _ => None;
            cmd.serveStdio := Some (wrapError "stdio: context canceled" contextCanceled) |}
  = None.
Proof.
  destruct (Run_stdio_decides fixtures.ProfileFromString fixtures.ProfileNames
              fixtures.FromString fixtures.Names "0.0.0"
              (fixtures.optionsWithPorts 8080 0)
              {| cmd.newServer := fun _ => None; cmd.sseStart := fun _ => None;
                 cmd.httpStart := fun _ => None;
                 cmd.serveStdio :=
                   Some (wrapError "stdio: context canceled" contextCanceled) |})
    as (_ & _ & Hres).
  { vm_compute. tauto. }
  exact Hres.
Defined.

Lemma Run_returns_nil_witness :
  (cmd.Version (fixtures.options "full" "table" false) = true /\
   In (cmd.Fprintf ("0.0.0" +:+ LF))
      (events (cmd.Run fixtures.ProfileFromString fixtures.ProfileNames
                       fixtures.FromString fixtures.Names "0.0.0"
                       (fixtures.options "full" "table" false))
              fixtures.world)) \/
  (In cmd.ServeStdio
      (events (cmd.Run fixtures.ProfileFromString fixtures.ProfileNames
                       fixtures.FromString fixtures.Names "0.0.0"
                       (fixtures.options "full" "table" false))
              fixtures.world) /\
   spec.afterStdio (cmd.serveStdio fixtures.world) = None).
Proof.
  apply (Run_returns_nil fixtures.ProfileFromString fixtures.ProfileNames
           fixtures.FromString fixtures.Names "0.0.0"
           (fixtures.options "full" "table" false) fixtures.world).
  reflexivity.
Defined.
